(** * node-mbr: the Master Boot Record codec

    A shallow embedding of [lib/mbr.js] (the format detector and the blank
    sector constructor) and of the NEWLDR record ([NEWLDRRecord], its
    [buffer] getter and setter), with the properties of the format
    detector and of the NEWLDR codec stated and proved over it.

    A Node [Buffer] is a list of byte values (integers in [0, 256));
    [buffer[i]] is the list lookup [b !! i], which is [None] where
    JavaScript answers [undefined]; [buffer[i] = v] is the list insert,
    which, like a Buffer, neither grows nor fails out of range.  A [throw]
    is the [Throw] branch of the completion monad. *)

From Stdlib Require Import ZArith NArith List String Ascii HexadecimalString Lia.
From stdpp Require Import base option list strings.

Open Scope Z_scope.

(** ** The JavaScript and Node primitives the sources use *)

Module JS.

(** The error constructors the sources throw.  [RangeError] is what the
    Buffer accessors raise on an offset outside the buffer. *)
Inductive ErrorKind : Set :=
| TypeError
| Error
| SyntaxError
| RangeError.

Record Exception : Set := mkException {
  kind : ErrorKind;
  message : string
}.

(** The outcome of evaluating an expression: a value, or a thrown
    exception that unwinds the rest of the function. *)
Inductive Completion (A : Type) : Type :=
| Normal (a : A)
| Throw (e : Exception).

Arguments Normal {A} a.
Arguments Throw {A} e.

Definition throw {A : Type} (k : ErrorKind) (msg : string) : Completion A :=
  Throw (mkException k msg).

#[global] Instance Completion_ret : MRet Completion := fun A a => Normal a.

#[global] Instance Completion_bind : MBind Completion := fun A B f m =>
  match m with
  | Normal a => f a
  | Throw e => Throw e
  end.

(** A Buffer: its bytes, in order. *)
Abbreviation Buffer := (list Z) (only parsing).

(** Every cell of a buffer holds an unsigned 8-bit value. *)
Definition wf_buffer (b : Buffer) : Prop :=
  Forall (fun x => 0 <= x < 256) b.

(** The values a caller can pass where a Buffer is expected. *)
Inductive Value : Type :=
| Undefined
| Null
| Boolean (b : bool)
| Number (n : Z)
| Str (s : string)
| Buf (b : Buffer).

(** [Buffer.isBuffer] *)
Definition isBuffer (v : Value) : bool :=
  match v with
  | Buf _ => true
  | _ => false
  end.

(** [new Buffer( size )]: [size] bytes of uninitialised memory, whose
    contents [heap] are arbitrary. *)
Definition Buffer_new (size : nat) (heap : nat -> Z) : Buffer :=
  (fun i => heap i mod 256) <$> seq 0 size.

(** [buffer.fill( value )] *)
Definition fill (value : Z) (b : Buffer) : Buffer :=
  replicate (length b) (value mod 256).

(** [buffer[ i ] = value] *)
Definition set_index (i : nat) (value : Z) (b : Buffer) : Buffer :=
  <[i := value mod 256]> b.

(** [buffer[ i ] === value] *)
Definition index_is (b : Buffer) (i : nat) (value : Z) : bool :=
  bool_decide (b !! i = Some value).

(** [buffer.slice( start, end )], for offsets that are given and not
    negative. *)
Definition slice (b : Buffer) (start end_ : nat) : Buffer :=
  drop start (take end_ b).

(** Decoding one byte as ['ascii']: the high bit is dropped. *)
Definition ascii_decode (x : Z) : ascii :=
  ascii_of_N (Z.to_N (Z.land x 0x7F)).

(** Encoding one character as ['ascii']: its character code. *)
Definition ascii_encode (c : ascii) : Z :=
  Z.of_N (N_of_ascii c).

(** [buffer.toString( 'ascii', start, end )]; an omitted [end] is the
    length of the buffer. *)
Definition toString_ascii (b : Buffer) (start : nat) (end_ : option nat) : string :=
  string_of_list_ascii
    (ascii_decode <$> slice b start (default (length b) end_)).

(** [buffer.write( string, offset, 'ascii' )]: the characters that fit
    are stored from [offset] on, the others are dropped. *)
Definition write_ascii (s : string) (offset : nat) (b : Buffer) : Buffer :=
  list_inserts offset (ascii_encode <$> list_ascii_of_string s) b.

(** [source.copy( target, targetStart )] *)
Definition copy (source : Buffer) (targetStart : nat) (target : Buffer) : Buffer :=
  list_inserts targetStart source target.

Definition readUInt8 (b : Buffer) (offset : nat) : Completion Z :=
  match b !! offset with
  | Some x => Normal x
  | None => throw RangeError "index out of range"
  end.

Definition readUInt16LE (b : Buffer) (offset : nat) : Completion Z :=
  match b !! offset, b !! (offset + 1)%nat with
  | Some x0, Some x1 => Normal (Z.lor x0 (Z.shiftl x1 8))
  | _, _ => throw RangeError "index out of range"
  end.

Definition readUInt32LE (b : Buffer) (offset : nat) : Completion Z :=
  match b !! offset, b !! (offset + 1)%nat,
        b !! (offset + 2)%nat, b !! (offset + 3)%nat with
  | Some x0, Some x1, Some x2, Some x3 =>
      Normal (Z.lor (Z.lor x0 (Z.shiftl x1 8)) (Z.shiftl x2 16)
              + x3 * 0x1000000)
  | _, _, _, _ => throw RangeError "index out of range"
  end.

(** The check every [writeUInt*] makes, when called without [noAssert],
    before it stores anything: the value fits the width, and the bytes fit
    the buffer; it throws otherwise. *)
Definition checkInt (b : Buffer) (value : Z) (offset ext : nat) (max : Z)
  : Completion unit :=
  if (value <? 0) || (max <? value) then
    throw TypeError "value is out of bounds"
  else if (length b <? offset + ext)%nat then
    throw RangeError "index out of range"
  else Normal tt.

Definition writeUInt8 (value : Z) (offset : nat) (b : Buffer) : Completion Buffer :=
  _ ← checkInt b value offset 1 0xFF;
  Normal (<[offset := value]> b).

Definition writeUInt16LE (value : Z) (offset : nat) (b : Buffer) : Completion Buffer :=
  _ ← checkInt b value offset 2 0xFFFF;
  Normal (<[(offset + 1)%nat := Z.land (Z.shiftr value 8) 0xFF]>
            (<[offset := Z.land value 0xFF]> b)).

Definition writeUInt32LE (value : Z) (offset : nat) (b : Buffer) : Completion Buffer :=
  _ ← checkInt b value offset 4 0xFFFFFFFF;
  Normal (<[offset := Z.land value 0xFF]>
            (<[(offset + 1)%nat := Z.land (Z.shiftr value 8) 0xFF]>
               (<[(offset + 2)%nat := Z.land (Z.shiftr value 16) 0xFF]>
                  (<[(offset + 3)%nat := Z.land (Z.shiftr value 24) 0xFF]> b)))).

(** [number.toString( 16 )] on an integer: lower-case digits, no
    padding, a minus sign for a negative number. *)
Definition Number_toString16 (n : Z) : string :=
  NilZero.string_of_int (Z.to_hex_int n).

Definition upper (c : ascii) : ascii :=
  let n := N_of_ascii c in
  if ((97 <=? n) && (n <=? 122))%N then ascii_of_N (n - 32) else c.

(** [string.toUpperCase()] *)
Fixpoint toUpperCase (s : string) : string :=
  match s with
  | EmptyString => EmptyString
  | String c s' => String (upper c) (toUpperCase s')
  end.

(** [haystack.indexOf( needle ) !== -1] *)
Definition includes (needle haystack : string) : bool :=
  match String.index 0 needle haystack with
  | Some _ => true
  | None => false
  end.

End JS.

Import JS.

(** ** lib/mbr.js *)

Module MBR.

(** [MBR.detectFormat( buffer )].  The last branch of the match is the
    test [!isBuffer( buffer )], which the source makes first. *)
Definition detectFormat (buffer : Value) : Completion string :=
  match buffer with
  | Buf b =>
      if (length b <? 512)%nat then
        throw Error "Buffer too small (must be at least 512 bytes)"
      else
        sig ← readUInt16LE b 0x1FE;
        if negb (sig =? 0xAA55) then
          seen ← readUInt16LE b 0x1FE;
          throw SyntaxError
            ("Invalid MBR boot signature. Expected 0xAA55, " ++
             "but saw 0x" ++ toUpperCase (Number_toString16 seen))
        else if index_is b 0x17C 0x5A && index_is b 0x17D 0xA5 then
          Normal "AST"
        else if index_is b 0x0FC 0xAA && index_is b 0x0FD 0x55 then
          Normal "DM"
        else if String.eqb (toString_ascii b 0x02 None) "NEWLDR" then
          Normal "NEWLDR"
        else if index_is b 0x1AC 0x78 && index_is b 0x1AD 0x56 then
          Normal "AAP"
        else if index_is b 0x0DA 0x00 && index_is b 0x0DB 0x00 then
          Normal "MODERN"
        else
          Normal "CLASSIC"
  | _ => throw TypeError "Argument must be a Buffer"
  end.

(** [MBR.createBuffer()]; [heap] is what the fresh allocation holds. *)
Definition createBuffer (heap : nat -> Z) : Buffer :=
  let buffer := Buffer_new 0x200 heap in
  let buffer := fill 0 buffer in
  let buffer := set_index 0x1FE 0x55 buffer in
  let buffer := set_index 0x1FF 0xAA buffer in
  buffer.

(** [MBR.parse( buffer, start, end )] on a Buffer; an omitted offset is
    [None].  [construct format buffer] stands for
    [new MBR[ format ]( buffer )]: the constructors of the format classes
    are in [./format/*], outside this file. *)
Definition parse {Instance : Type}
    (construct : string -> Buffer -> Completion Instance)
    (buffer : Buffer) (start end_ : option nat) : Completion Instance :=
  let buffer :=
    slice buffer (default 0%nat start) (default (length buffer) end_) in
  format ← detectFormat (Buf buffer);
  construct format buffer.

End MBR.

(** ** The [chs] package *)

Module CHS.

Record t : Set := mkCHS {
  cylinder : Z;
  head : Z;
  sector : Z
}.

(** Modelled from the spec: the [buffer] getter of the external [chs]
    package, which is not part of this repository.  Byte 0 is the head,
    byte 1 the two high bits of the cylinder (bits 6-7) with the sector
    (bits 0-5), byte 2 the low eight bits of the cylinder; values wider
    than their field are masked. *)
Definition get_buffer (this : t) : Buffer :=
  [ Z.land (head this) 0xFF;
    Z.lor (Z.land (Z.shiftr (cylinder this) 2) 0xC0)
          (Z.land (sector this) 0x3F);
    Z.land (cylinder this) 0xFF ].

(** Modelled from the spec: the [buffer] setter of the external [chs]
    package: [sector = byte1 & 0x3F],
    [cylinder = ((byte1 & 0xC0) << 2) | byte2], [head = byte0].  A byte
    the slice does not have reads as zero. *)
Definition set_buffer (this : t) (value : Buffer) : t :=
  let byte0 := default 0 (value !! 0%nat) in
  let byte1 := default 0 (value !! 1%nat) in
  let byte2 := default 0 (value !! 2%nat) in
  {| cylinder := Z.lor (Z.shiftl (Z.land byte1 0xC0) 2) byte2;
     head := byte0;
     sector := Z.land byte1 0x3F |}.

End CHS.

(** ** The NEWLDR record *)

Module NEWLDRRecord.

Record t : Set := mkNEWLDRRecord {
  size : Z;
  physicalDrive : Z;
  firstCHS : CHS.t;
  minDL : Z;
  firstLBA : Z;
  patchOffset : Z;
  checksum : Z;
  signature : string
}.

(** [get buffer()]; [heap] is what the fresh allocation holds. *)
Definition get_buffer (heap : nat -> Z) (this : t) : Completion Buffer :=
  let buffer := Buffer_new 30 heap in
  let buffer := fill 0 buffer in
  let buffer := set_index 0 0xEB buffer in
  buffer ← writeUInt8 (size this) 1 buffer;
  let buffer := write_ascii "NEWLDR" 2 buffer in
  buffer ← writeUInt8 (physicalDrive this) 8 buffer;
  let buffer := copy (CHS.get_buffer (firstCHS this)) 9 buffer in
  buffer ← writeUInt8 (minDL this) 12 buffer;
  buffer ← writeUInt32LE (firstLBA this) 16 buffer;
  buffer ← writeUInt16LE (patchOffset this) 20 buffer;
  buffer ← writeUInt16LE (checksum this) 22 buffer;
  let buffer := write_ascii (signature this) 24 buffer in
  Normal buffer.

(** [set buffer( value )]: every field of [this] is assigned, in the
    order of the source; a read that throws abandons the assignment.  The
    last branch of the match is the test [!isBuffer( value )]. *)
Definition set_buffer (this : t) (value : Value) : Completion t :=
  match value with
  | Buf value =>
      size' ← readUInt8 value 1;
      physicalDrive' ← readUInt8 value 8;
      let firstCHS' := CHS.set_buffer (firstCHS this) (slice value 9 12) in
      minDL' ← readUInt8 value 12;
      firstLBA' ← readUInt32LE value 16;
      patchOffset' ← readUInt16LE value 20;
      checksum' ← readUInt16LE value 22;
      let signature' := toString_ascii value 24 None in
      Normal {| size := size';
                physicalDrive := physicalDrive';
                firstCHS := firstCHS';
                minDL := minDL';
                firstLBA := firstLBA';
                patchOffset := patchOffset';
                checksum := checksum';
                signature := signature' |}
  | _ => throw TypeError "Value must be a Buffer"
  end.

(** [new NEWLDRRecord( buffer, start, end )].  [blank] is what
    [new CHS()] of the [chs] package returns. *)
Definition new (blank : CHS.t) (buffer : Value) (start end_ : option nat)
  : Completion t :=
  let this :=
    {| size := 0x16;
       physicalDrive := 0x00;
       firstCHS := blank;
       minDL := 0x00;
       firstLBA := 0x00000000;
       patchOffset := 0x0000;
       checksum := 0x0000;
       signature := "MSWIN4" |} in
  match buffer with
  | Buf b =>
      set_buffer this
        (Buf (slice b (default 0%nat start) (default (length b) end_)))
  | _ => Normal this
  end.

End NEWLDRRecord.


(** ** The tests of the detector as data *)

Module Rules.

(** The [if] cascade of [MBR.detectFormat] transcribed as a list: each
    test of the source, as the source writes it, with the string the
    branch returns, in the order of the source.  The third test is the
    source's comparison of the whole text from offset 2 to the end of
    the buffer, not the six bytes the specification names. *)
Definition chain : list ((Buffer -> bool) * string) :=
  [ (fun b => index_is b 0x17C 0x5A && index_is b 0x17D 0xA5, "AST");
    (fun b => index_is b 0x0FC 0xAA && index_is b 0x0FD 0x55, "DM");
    (fun b => String.eqb (toString_ascii b 0x02 None) "NEWLDR", "NEWLDR");
    (fun b => index_is b 0x1AC 0x78 && index_is b 0x1AD 0x56, "AAP");
    (fun b => index_is b 0x0DA 0x00 && index_is b 0x0DB 0x00, "MODERN") ].

(** The string of the first test of the source that succeeds, and that
    of the final [else] when none does. *)
Definition first_match (b : Buffer) : string :=
  match find (fun rule => fst rule b) chain with
  | Some rule => snd rule
  | None => "CLASSIC"
  end.

End Rules.

Import Rules.

(** ** The vocabulary of the specification *)

Module Spec.

(** The three error kinds, by the constructor the source throws. *)
Definition InvalidArgumentType (e : Exception) : Prop := kind e = TypeError.
Definition MalformedSector (e : Exception) : Prop := kind e = Error.
Definition InvalidSignature (e : Exception) : Prop := kind e = SyntaxError.

(** The closed set of variant tags. *)
Definition formats : list string :=
  ["CLASSIC"; "MODERN"; "AAP"; "NEWLDR"; "AST"; "DM"].

Definition wf_value (v : Value) : Prop :=
  match v with
  | Buf b => wf_buffer b
  | _ => True
  end.

(** The conditions under which the detector is said to fail. *)
Definition not_a_buffer (v : Value) : Prop := isBuffer v = false.

Definition too_short (v : Value) : Prop :=
  exists b, v = Buf b /\ (length b < 512)%nat.

Definition valid_signature (b : Buffer) : Prop :=
  b !! 0x1FE%nat = Some 0x55 /\ b !! 0x1FF%nat = Some 0xAA.

Definition signature_mismatch (v : Value) : Prop :=
  exists b, v = Buf b /\ ~ valid_signature b.

(** The marker patterns. *)
Definition AST_marker (b : Buffer) : Prop :=
  b !! 0x17C%nat = Some 0x5A /\ b !! 0x17D%nat = Some 0xA5.

Definition DM_marker (b : Buffer) : Prop :=
  b !! 0x0FC%nat = Some 0xAA /\ b !! 0x0FD%nat = Some 0x55.

(** The six bytes at offsets 2 to 7 read "NEWLDR". *)
Definition NEWLDR_tag (b : Buffer) : Prop :=
  toString_ascii b 0x02 (Some 0x08%nat) = "NEWLDR".

(** The ordered predicate chain of the specification (section 4.4), in
    its words: bytes 0x17C, 0x17D = 0x5A, 0xA5 select AST; bytes 0x0FC,
    0x0FD = 0xAA, 0x55 select DM; the ASCII bytes at offsets 0x02 to 0x08
    reading "NEWLDR" select NEWLDR; bytes 0x1AC, 0x1AD = 0x78, 0x56 select
    AAP; bytes 0x0DA, 0x0DB = 0x00, 0x00 select MODERN. *)
Definition spec_chain : list ((Buffer -> bool) * string) :=
  [ (fun b => bool_decide (AST_marker b), "AST");
    (fun b => bool_decide (DM_marker b), "DM");
    (fun b => bool_decide (NEWLDR_tag b), "NEWLDR");
    (fun b => bool_decide (b !! 0x1AC%nat = Some 0x78 /\
                           b !! 0x1AD%nat = Some 0x56), "AAP");
    (fun b => bool_decide (b !! 0x0DA%nat = Some 0x00 /\
                           b !! 0x0DB%nat = Some 0x00), "MODERN") ].

(** The tag the specification selects: that of the first rule of its
    chain that matches, CLASSIC when none does. *)
Definition spec_first_match (b : Buffer) : string :=
  match find (fun rule => fst rule b) spec_chain with
  | Some rule => snd rule
  | None => "CLASSIC"
  end.

(** The blank sector: zero but for the boot signature. *)
Definition blank_sector : Buffer := replicate 510 0 ++ [0x55; 0xAA].

(** A sector with a valid boot signature and the tag "NEWLDR" at offset 2. *)
Definition newldr_sector : Buffer := write_ascii "NEWLDR" 2 blank_sector.

(** A sector that carries the AST marker and the DM marker at once. *)
Definition ast_dm_sector : Buffer :=
  <[0x17C%nat := 0x5A]> (<[0x17D%nat := 0xA5]>
    (<[0x0FC%nat := 0xAA]> (<[0x0FD%nat := 0x55]> blank_sector))).

(** A sector with the tag "NEWLDR" at offset 2 and the AAP marker. *)
Definition newldr_aap_sector : Buffer :=
  <[0x1AC%nat := 0x78]> (<[0x1AD%nat := 0x56]> newldr_sector).

(** A 512-byte sector of zeros: no boot signature. *)
Definition zero_sector : Buffer := replicate 512 0.

(** A buffer that is too short, though it ends in the boot signature. *)
Definition short_buffer : Buffer := replicate 509 0 ++ [0x55; 0xAA].

(** Every integer field of the record fits the width it is written
    with. *)
Definition fits (r : NEWLDRRecord.t) : Prop :=
  0 <= NEWLDRRecord.size r <= 0xFF /\
  0 <= NEWLDRRecord.physicalDrive r <= 0xFF /\
  0 <= NEWLDRRecord.minDL r <= 0xFF /\
  0 <= NEWLDRRecord.firstLBA r <= 0xFFFFFFFF /\
  0 <= NEWLDRRecord.patchOffset r <= 0xFFFF /\
  0 <= NEWLDRRecord.checksum r <= 0xFFFF.

(** The tag "NEWLDR" as bytes. *)
Definition NEWLDR_bytes : Buffer := [0x4E; 0x45; 0x57; 0x4C; 0x44; 0x52].

(** The byte at an offset of a buffer that has it. *)
Definition byte_at (b : Buffer) (i : nat) : Z := default 0 (b !! i).

(** The little-endian value of the two, or four, bytes at an offset. *)
Definition LE16 (b : Buffer) (i : nat) : Z :=
  byte_at b i + 2 ^ 8 * byte_at b (i + 1).

Definition LE32 (b : Buffer) (i : nat) : Z :=
  byte_at b i + 2 ^ 8 * byte_at b (i + 1) +
  2 ^ 16 * byte_at b (i + 2) + 2 ^ 24 * byte_at b (i + 3).

(** The offsets of a NEWLDR buffer that hold a field: 1, 8 to 12, and 16
    onward.  The others are the jump opcode (0), the tag (2 to 7) and the
    reserved bytes (13 to 15). *)
Definition field_offset (i : nat) : bool :=
  (i =? 1)%nat || ((8 <=? i)%nat && (i <=? 12)%nat) || (16 <=? i)%nat.

(** A record as a caller may hold it, with an over-long OEM signature. *)
Definition sample_record : NEWLDRRecord.t :=
  {| NEWLDRRecord.size := 0x16;
     NEWLDRRecord.physicalDrive := 0x80;
     NEWLDRRecord.firstCHS := CHS.mkCHS 1023 254 63;
     NEWLDRRecord.minDL := 0x80;
     NEWLDRRecord.firstLBA := 0x12345678;
     NEWLDRRecord.patchOffset := 0x0024;
     NEWLDRRecord.checksum := 0xBEEF;
     NEWLDRRecord.signature := "MSWIN4.1 LOADER" |}.

(** The same record with another size. *)
Definition resized_record : NEWLDRRecord.t :=
  {| NEWLDRRecord.size := 0x20;
     NEWLDRRecord.physicalDrive := 0x80;
     NEWLDRRecord.firstCHS := CHS.mkCHS 1023 254 63;
     NEWLDRRecord.minDL := 0x80;
     NEWLDRRecord.firstLBA := 0x12345678;
     NEWLDRRecord.patchOffset := 0x0024;
     NEWLDRRecord.checksum := 0xBEEF;
     NEWLDRRecord.signature := "MSWIN4.1 LOADER" |}.

(** A record whose size does not fit one byte. *)
Definition oversized_record : NEWLDRRecord.t :=
  {| NEWLDRRecord.size := 0x100;
     NEWLDRRecord.physicalDrive := 0x80;
     NEWLDRRecord.firstCHS := CHS.mkCHS 1023 254 63;
     NEWLDRRecord.minDL := 0x80;
     NEWLDRRecord.firstLBA := 0x12345678;
     NEWLDRRecord.patchOffset := 0x0024;
     NEWLDRRecord.checksum := 0xBEEF;
     NEWLDRRecord.signature := "MSWIN4" |}.

(** A 30-byte NEWLDR buffer, and one that differs from it at the jump
    opcode, in the tag and in the reserved bytes only. *)
Definition sample_buffer : Buffer :=
  [0xEB; 0x16; 0x4E; 0x45; 0x57; 0x4C; 0x44; 0x52; 0x80; 0xFE;
   0xFF; 0xFF; 0x80; 0x00; 0x00; 0x00; 0x78; 0x56; 0x34; 0x12;
   0x24; 0x00; 0xEF; 0xBE; 0x4D; 0x53; 0x57; 0x49; 0x4E; 0x34].

Definition scrambled_buffer : Buffer :=
  [0x00; 0x16; 0x01; 0x02; 0x03; 0x04; 0x05; 0x06; 0x80; 0xFE;
   0xFF; 0xFF; 0x80; 0xAA; 0xBB; 0xCC; 0x78; 0x56; 0x34; 0x12;
   0x24; 0x00; 0xEF; 0xBE; 0x4D; 0x53; 0x57; 0x49; 0x4E; 0x34].

End Spec.

Import Spec.

(** ** The vocabulary of the further properties *)

Module Layout.

(** The offsets the format detector looks at. *)
Definition marker_offsets : list nat :=
  [0x0DA; 0x0DB; 0x0FC; 0x0FD; 0x17C; 0x17D; 0x1AC; 0x1AD; 0x1FE; 0x1FF]%nat.

Definition AAP_marker (b : Buffer) : Prop :=
  b !! 0x1AC%nat = Some 0x78 /\ b !! 0x1AD%nat = Some 0x56.

Definition MODERN_marker (b : Buffer) : Prop :=
  b !! 0x0DA%nat = Some 0x00 /\ b !! 0x0DB%nat = Some 0x00.

(** A buffer the detector accepts: long enough, with the boot signature. *)
Definition sector (b : Buffer) : Prop :=
  (512 <= length b)%nat /\ valid_signature b.

(** The tags a sector can be given. *)
Definition reachable_formats : list string :=
  ["CLASSIC"; "MODERN"; "AAP"; "AST"; "DM"].

(** The window [MBR.parse] and the NEWLDR constructor cut out of their
    argument. *)
Definition window (b : Buffer) (start end_ : option nat) : Buffer :=
  slice b (default 0%nat start) (default (length b) end_).

(** The character codes of a string. *)
Definition codes (s : string) : Buffer :=
  ascii_encode <$> list_ascii_of_string s.

(** A string of 7-bit characters. *)
Definition ascii_text (s : string) : Prop :=
  Forall (fun x => x < 0x80) (codes s).

(** The six bytes an OEM signature occupies: its first six character
    codes, zeros after a shorter string. *)
Definition signature_field (s : string) : Buffer :=
  take 6 (codes s ++ replicate 6 0).

(** The 24 bytes the getter stores before the OEM signature, in the
    order of the offsets. *)
Definition encoded_fields (r : NEWLDRRecord.t) : Buffer :=
  [0xEB; NEWLDRRecord.size r] ++ NEWLDR_bytes ++
  [NEWLDRRecord.physicalDrive r] ++
  CHS.get_buffer (NEWLDRRecord.firstCHS r) ++
  [NEWLDRRecord.minDL r; 0; 0; 0] ++
  [Z.land (NEWLDRRecord.firstLBA r) 0xFF;
   Z.land (Z.shiftr (NEWLDRRecord.firstLBA r) 8) 0xFF;
   Z.land (Z.shiftr (NEWLDRRecord.firstLBA r) 16) 0xFF;
   Z.land (Z.shiftr (NEWLDRRecord.firstLBA r) 24) 0xFF] ++
  [Z.land (NEWLDRRecord.patchOffset r) 0xFF;
   Z.land (Z.shiftr (NEWLDRRecord.patchOffset r) 8) 0xFF] ++
  [Z.land (NEWLDRRecord.checksum r) 0xFF;
   Z.land (Z.shiftr (NEWLDRRecord.checksum r) 8) 0xFF].

(** The offsets of the integer fields of a NEWLDR buffer. *)
Definition integer_offsets : list nat :=
  [1; 8; 12; 16; 17; 18; 19; 20; 21; 22; 23]%nat.

(** A sector like the blank one, with a partition table entry filled in
    and trailing bytes after the sector. *)
Definition partitioned_sector : Buffer :=
  <[0x1BE%nat := 0x80]> (<[0x1C2%nat := 0x0C]> blank_sector) ++ [1; 2; 3].


(** Two blank sectors in a row. *)
Definition two_sectors : Buffer := blank_sector ++ blank_sector.

(** Constructors for the witnesses: one records the format and the
    length of the window, the other refuses the NEWLDR format. *)
Definition record_format (format : string) (w : Buffer)
  : Completion (string * nat) :=
  Normal (format, length w).

Definition refuse_NEWLDR (format : string) (w : Buffer)
  : Completion (string * nat) :=
  if String.eqb format "NEWLDR" then throw TypeError "unreachable"
  else Normal (format, length w).

(** A record with a short OEM signature. *)
Definition short_signature_record : NEWLDRRecord.t :=
  {| NEWLDRRecord.size := 0x16;
     NEWLDRRecord.physicalDrive := 0x80;
     NEWLDRRecord.firstCHS := CHS.mkCHS 1023 254 63;
     NEWLDRRecord.minDL := 0x80;
     NEWLDRRecord.firstLBA := 0x12345678;
     NEWLDRRecord.patchOffset := 0x0024;
     NEWLDRRecord.checksum := 0xBEEF;
     NEWLDRRecord.signature := "DOS" |}.

(** A record with a six-character OEM signature. *)
Definition exact_record : NEWLDRRecord.t :=
  {| NEWLDRRecord.size := 0x16;
     NEWLDRRecord.physicalDrive := 0x80;
     NEWLDRRecord.firstCHS := CHS.mkCHS 1023 254 63;
     NEWLDRRecord.minDL := 0x80;
     NEWLDRRecord.firstLBA := 0x12345678;
     NEWLDRRecord.patchOffset := 0x0024;
     NEWLDRRecord.checksum := 0xBEEF;
     NEWLDRRecord.signature := "MSWIN4" |}.

(** Two NEWLDR buffers in a row. *)
Definition two_records : Buffer := scrambled_buffer ++ sample_buffer.

(** A buffer too short for the NEWLDR setter: 23 bytes. *)
Definition truncated_buffer : Buffer := take 23 sample_buffer.

End Layout.

Import Layout.

(** ** Facts about the primitives *)

Lemma bind_Normal {A B : Type} (f : A -> Completion B) (a : A) :
  (Normal a ≫= f) = f a.
Proof. reflexivity. Qed.

Lemma length_Buffer_new (size : nat) (heap : nat -> Z) :
  length (Buffer_new size heap) = size.
Proof. unfold Buffer_new. now rewrite length_fmap, length_seq. Qed.

Lemma fill_Buffer_new (size : nat) (heap : nat -> Z) (value : Z) :
  fill value (Buffer_new size heap) = replicate size (value mod 256).
Proof. unfold fill. now rewrite length_Buffer_new. Qed.

Lemma length_string_of_list_ascii (l : list ascii) :
  String.length (string_of_list_ascii l) = length l.
Proof. induction l as [|c l IH]; simpl; congruence. Qed.

Lemma length_toString_ascii (b : Buffer) (start : nat) :
  String.length (toString_ascii b start None) = (length b - start)%nat.
Proof.
  unfold toString_ascii, slice; simpl.
  rewrite length_string_of_list_ascii, length_fmap, firstn_all.
  apply length_drop.
Qed.

Example toString16_upper : toUpperCase (Number_toString16 0xAB5) = "AB5".
Proof. reflexivity. Qed.

Example includes_found :
  includes "0xAA55" "Expected 0xAA55, but saw 0x0" = true /\
  includes "0x0000" "Expected 0xAA55, but saw 0x0" = false.
Proof. split; reflexivity. Qed.

Example toString_ascii_high_bit :
  toString_ascii [0xCD; 0x4D; 0xD3] 0 None = "MMS".
Proof. reflexivity. Qed.

Example write_ascii_truncates :
  write_ascii "MSWIN4.1" 2 [0; 0; 0; 0; 0] = [0; 0; 0x4D; 0x53; 0x57].
Proof. reflexivity. Qed.

Lemma lor_shiftl_add (a b n : Z) :
  0 <= n -> 0 <= a < 2 ^ n -> Z.lor a (Z.shiftl b n) = a + b * 2 ^ n.
Proof.
  intros Hn Ha.
  rewrite <- Z.add_nocarry_lor.
  - now rewrite Z.shiftl_mul_pow2.
  - rewrite <- (Z.mod_small a (2 ^ n)) by lia.
    rewrite <- Z.land_ones by lia.
    rewrite <- Z.land_assoc, (Z.land_comm (Z.ones n)), Z.land_ones by lia.
    rewrite Z.shiftl_mul_pow2 by lia.
    rewrite Z.mod_mul by lia.
    apply Z.land_0_r.
Qed.

Lemma wf_buffer_lookup (b : Buffer) (i : nat) (x : Z) :
  wf_buffer b -> b !! i = Some x -> 0 <= x < 256.
Proof.
  intros Hwf Hi. unfold wf_buffer in Hwf.
  rewrite Forall_lookup in Hwf. exact (Hwf i x Hi).
Qed.

Lemma readUInt16LE_Some (b : Buffer) (offset : nat) (x0 x1 : Z) :
  b !! offset = Some x0 -> b !! S offset = Some x1 ->
  readUInt16LE b offset = Normal (Z.lor x0 (Z.shiftl x1 8)).
Proof.
  intros H0 H1. unfold readUInt16LE.
  rewrite Nat.add_1_r, H0, H1. reflexivity.
Qed.

(** On a well-formed buffer the 16-bit read is the little-endian value. *)
Lemma readUInt16LE_value (b : Buffer) (offset : nat) (x0 x1 : Z) :
  wf_buffer b -> b !! offset = Some x0 -> b !! S offset = Some x1 ->
  readUInt16LE b offset = Normal (x0 + 256 * x1).
Proof.
  intros Hwf H0 H1. rewrite (readUInt16LE_Some _ _ _ _ H0 H1).
  pose proof (wf_buffer_lookup _ _ _ Hwf H0).
  rewrite lor_shiftl_add by lia. f_equal. lia.
Qed.

(** ** The format detector *)

Lemma detectFormat_not_buffer (v : Value) :
  isBuffer v = false ->
  MBR.detectFormat v = throw TypeError "Argument must be a Buffer".
Proof. destruct v; simpl; intros H; try reflexivity. discriminate H. Qed.

Lemma detectFormat_short (b : Buffer) :
  (length b < 512)%nat ->
  MBR.detectFormat (Buf b) =
  throw Error "Buffer too small (must be at least 512 bytes)".
Proof.
  intros Hlen. unfold MBR.detectFormat.
  destruct (Nat.ltb_spec (length b) 512) as [_|Hge]; [reflexivity | lia].
Qed.

(** A sector whose last two bytes do not read 0xAA55: the message ends in
    the value read, in upper-case hexadecimal without padding. *)
Lemma detectFormat_signature (b : Buffer) (x0 x1 : Z) :
  (512 <= length b)%nat ->
  b !! 0x1FE%nat = Some x0 -> b !! 0x1FF%nat = Some x1 ->
  Z.lor x0 (Z.shiftl x1 8) <> 0xAA55 ->
  MBR.detectFormat (Buf b) =
  throw SyntaxError
    ("Invalid MBR boot signature. Expected 0xAA55, but saw 0x" ++
     toUpperCase (Number_toString16 (Z.lor x0 (Z.shiftl x1 8)))).
Proof.
  intros Hlen H0 H1 Hne. unfold MBR.detectFormat.
  destruct (Nat.ltb_spec (length b) 512) as [Hlt|_]; [lia |].
  rewrite (readUInt16LE_Some b _ x0 x1 H0 H1), !bind_Normal.
  destruct (Z.eqb_spec (Z.lor x0 (Z.shiftl x1 8)) 0xAA55) as [Heq|_];
    [contradiction | reflexivity].
Qed.

(** A sector with the boot signature: the detector returns the tag of the
    first rule of the chain that matches. *)
Lemma detectFormat_valid (b : Buffer) :
  (512 <= length b)%nat -> valid_signature b ->
  MBR.detectFormat (Buf b) = Normal (first_match b).
Proof.
  intros Hlen [H0 H1]. unfold MBR.detectFormat.
  destruct (Nat.ltb_spec (length b) 512) as [Hlt|_]; [lia |].
  rewrite (readUInt16LE_Some b _ _ _ H0 H1), !bind_Normal.
  change (Z.lor 0x55 (Z.shiftl 0xAA 8) =? 0xAA55) with true.
  unfold first_match, chain. cbn [negb find fst snd].
  repeat match goal with
         | |- context [if ?c then _ else _] => destruct c; try reflexivity
         end.
Qed.

Lemma first_match_formats (b : Buffer) : first_match b ∈ formats.
Proof.
  unfold first_match, chain, formats. cbn [find fst snd].
  repeat match goal with
         | |- context [if ?c then _ else _] => destruct c
         end; cbn [snd]; apply list_elem_of_In; simpl; tauto.
Qed.

(** The source compares the whole text from offset 2 to the end of the
    buffer with the six characters "NEWLDR": on a sector, which has at
    least 510 bytes after offset 2, the comparison fails. *)
Lemma NEWLDR_test_false (b : Buffer) :
  (512 <= length b)%nat ->
  String.eqb (toString_ascii b 0x02 None) "NEWLDR" = false.
Proof.
  intros Hlen. apply String.eqb_neq. intros Heq.
  pose proof (length_toString_ascii b 2) as Hl.
  rewrite Heq in Hl. simpl in Hl. lia.
Qed.

Lemma detectFormat_never_NEWLDR (v : Value) :
  MBR.detectFormat v <> Normal "NEWLDR".
Proof.
  destruct v as [| | | | |b]; try discriminate.
  unfold MBR.detectFormat.
  destruct (Nat.ltb_spec (length b) 512) as [Hlt|Hge]; [discriminate |].
  destruct (readUInt16LE b 510) as [sig|e]; [| discriminate].
  rewrite bind_Normal.
  destruct (negb (sig =? 43605)).
  - destruct (readUInt16LE b 510); discriminate.
  - rewrite (NEWLDR_test_false b Hge).
    repeat match goal with
           | |- context [if ?c then _ else _] => destruct c
           end; discriminate.
Qed.

(** With bytes in range, the 16-bit read gives 0xAA55 for the bytes
    0x55, 0xAA and for no others. *)
Lemma signature_bytes (x0 x1 : Z) :
  0 <= x0 < 256 -> 0 <= x1 < 256 ->
  Z.lor x0 (Z.shiftl x1 8) = 0xAA55 <-> x0 = 0x55 /\ x1 = 0xAA.
Proof.
  intros H0 H1. rewrite lor_shiftl_add by lia.
  change (2 ^ 8) with 256. lia.
Qed.

Lemma createBuffer_blank (heap : nat -> Z) :
  MBR.createBuffer heap = blank_sector.
Proof.
  unfold MBR.createBuffer. rewrite fill_Buffer_new. reflexivity.
Qed.

Lemma detectFormat_blank_sector :
  MBR.detectFormat (Buf blank_sector) = Normal "MODERN".
Proof. vm_compute. reflexivity. Qed.

(** C1, as stated, fails: the blank sector of [createBuffer] is not
    classified CLASSIC.  Its bytes 0x0DA and 0x0DB are zero, which is the
    MODERN rule of the chain, and that rule comes before the CLASSIC
    default. *)
Lemma createBuffer_not_CLASSIC :
  ~ (MBR.createBuffer (fun _ => 0) = blank_sector /\
     MBR.detectFormat (Buf (MBR.createBuffer (fun _ => 0))) = Normal "CLASSIC").
Proof.
  rewrite createBuffer_blank, detectFormat_blank_sector.
  intros [_ H]. discriminate H.
Qed.

(** C1, amended: whatever the fresh allocation holds, [createBuffer]
    returns exactly 512 bytes, all zero except 0x55, 0xAA at offsets
    0x1FE and 0x1FF, and the format detector classifies that buffer
    MODERN. *)
Theorem createBuffer_blank_MODERN (heap : nat -> Z) :
  length (MBR.createBuffer heap) = 512%nat /\
  MBR.createBuffer heap = replicate 510 0 ++ [0x55; 0xAA] /\
  MBR.detectFormat (Buf (MBR.createBuffer heap)) = Normal "MODERN".
Proof.
  rewrite createBuffer_blank.
  split; [reflexivity |]. split; [reflexivity |].
  exact detectFormat_blank_sector.
Qed.

(** C2, evaluated at a failing input: [newldr_sector] is 512 bytes long,
    ends in the boot signature, reads "NEWLDR" at offsets 2 to 7 and has
    neither the AST nor the DM marker, yet the detector answers MODERN.
    The source compares [buffer.toString( 'ascii', 0x02 )], the text up
    to the end of the buffer, with "NEWLDR". *)
Theorem detectFormat_newldr_sector :
  length newldr_sector = 512%nat /\
  valid_signature newldr_sector /\
  NEWLDR_tag newldr_sector /\
  newldr_sector !! 0x17C%nat = Some 0 /\
  newldr_sector !! 0x0FC%nat = Some 0 /\
  MBR.detectFormat (Buf newldr_sector) = Normal "MODERN".
Proof. vm_compute. repeat split; reflexivity. Qed.

(** The AST test is the first the detector makes: a sector with the AST
    marker is classified AST, whatever else it carries, the DM marker
    included. *)
Lemma detectFormat_AST_first (b : Buffer) :
  (512 <= length b)%nat -> valid_signature b -> AST_marker b ->
  MBR.detectFormat (Buf b) = Normal "AST".
Proof.
  intros Hlen Hsig [Ha0 Ha1]. rewrite detectFormat_valid by assumption.
  unfold first_match, chain, index_is. cbn [find fst snd].
  now rewrite !bool_decide_eq_true_2 by assumption.
Qed.

Example detectFormat_ast_dm_sector :
  AST_marker ast_dm_sector /\ DM_marker ast_dm_sector /\
  MBR.detectFormat (Buf ast_dm_sector) = Normal "AST".
Proof. vm_compute. repeat split; reflexivity. Qed.

(** The detector and the chain of the specification agree on every
    sector on which the NEWLDR rule of the specification does not decide:
    one without the tag, or with the AST or the DM marker. *)
Lemma detectFormat_spec_chain (b : Buffer) :
  (512 <= length b)%nat -> valid_signature b ->
  (NEWLDR_tag b -> AST_marker b \/ DM_marker b) ->
  MBR.detectFormat (Buf b) = Normal (spec_first_match b).
Proof.
  intros Hlen Hsig Htag. rewrite detectFormat_valid by assumption. f_equal.
  unfold first_match, spec_first_match, chain, spec_chain.
  cbn [find fst snd].
  rewrite (NEWLDR_test_false b Hlen).
  unfold index_is, AST_marker, DM_marker in *.
  rewrite <- !bool_decide_and.
  repeat case_bool_decide; try reflexivity; tauto.
Qed.

(** Where the NEWLDR rule of the specification decides, the detector
    differs: the specification says NEWLDR, the detector does not. *)
Lemma detectFormat_spec_chain_NEWLDR (b : Buffer) :
  (512 <= length b)%nat -> NEWLDR_tag b -> ~ AST_marker b -> ~ DM_marker b ->
  spec_first_match b = "NEWLDR" /\
  MBR.detectFormat (Buf b) <> Normal (spec_first_match b).
Proof.
  intros Hlen Htag Hast Hdm.
  assert (E : spec_first_match b = "NEWLDR").
  { unfold spec_first_match, spec_chain. cbn [find fst snd].
    rewrite (bool_decide_eq_false_2 _ Hast), (bool_decide_eq_false_2 _ Hdm),
      (bool_decide_eq_true_2 _ Htag). reflexivity. }
  split; [exact E |]. rewrite E. apply detectFormat_never_NEWLDR.
Qed.

(** C3, evaluated at a failing input: [newldr_aap_sector] is 512 bytes
    long, ends in the boot signature, reads "NEWLDR" at offsets 2 to 7,
    carries the AAP marker and neither the AST nor the DM marker.  The
    chain of the specification, tried in the order AST, DM, NEWLDR, AAP,
    MODERN, selects NEWLDR, its third rule; the detector answers AAP, its
    fourth test, because its third test compares the text up to the end
    of the buffer with "NEWLDR" and never succeeds. *)
Theorem detectFormat_newldr_aap_sector :
  length newldr_aap_sector = 512%nat /\
  valid_signature newldr_aap_sector /\
  NEWLDR_tag newldr_aap_sector /\
  newldr_aap_sector !! 0x1AC%nat = Some 0x78 /\
  newldr_aap_sector !! 0x1AD%nat = Some 0x56 /\
  newldr_aap_sector !! 0x17C%nat = Some 0 /\
  newldr_aap_sector !! 0x0FC%nat = Some 0 /\
  spec_first_match newldr_aap_sector = "NEWLDR" /\
  MBR.detectFormat (Buf newldr_aap_sector) = Normal "AAP".
Proof. vm_compute. repeat split; reflexivity. Qed.

(** C4: on a buffer shorter than 512 bytes the detector throws the
    "Buffer too small" [Error] (MalformedSector), whatever the buffer
    holds, and so never the boot signature error. *)
Theorem detectFormat_short_MalformedSector (b : Buffer) :
  (length b < 512)%nat ->
  exists e, MBR.detectFormat (Buf b) = Throw e /\
            MalformedSector e /\ ~ InvalidSignature e /\
            message e = "Buffer too small (must be at least 512 bytes)".
Proof.
  intros Hlen. rewrite detectFormat_short by assumption.
  eexists. split; [reflexivity |].
  repeat split. discriminate.
Qed.

Lemma detectFormat_short_MalformedSector_witness :
  (length short_buffer < 512)%nat /\
  exists e, MBR.detectFormat (Buf short_buffer) = Throw e /\
            MalformedSector e /\ ~ InvalidSignature e /\
            message e = "Buffer too small (must be at least 512 bytes)".
Proof.
  assert (Hlen : (length short_buffer < 512)%nat)
    by (apply Nat.ltb_lt; vm_compute; reflexivity).
  split; [exact Hlen |].
  exact (detectFormat_short_MalformedSector short_buffer Hlen).
Defined.

(** C5, as stated, fails: on the 512-byte sector of zeros the message
    of the boot signature error does not contain 0x0000.  The value read
    is printed by [toString( 16 )], which does not pad. *)
Lemma detectFormat_zero_signature_not_padded :
  ~ (forall b : Buffer,
       length b = 512%nat ->
       b !! 0x1FE%nat = Some 0 -> b !! 0x1FF%nat = Some 0 ->
       exists e, MBR.detectFormat (Buf b) = Throw e /\
                 InvalidSignature e /\
                 includes "0x0000" (message e) = true).
Proof.
  intros H.
  destruct (H zero_sector eq_refl eq_refl eq_refl) as (e & He & _ & Hm).
  vm_compute in He. injection He as <-.
  vm_compute in Hm. discriminate Hm.
Qed.

(** C5, amended: on every 512-byte buffer whose bytes at 0x1FE and 0x1FF
    are zero the detector throws the boot signature [SyntaxError]
    (InvalidSignature), and its message reports the 16-bit value read in
    hexadecimal without padding: it ends in 0x0. *)
Theorem detectFormat_zero_signature (b : Buffer) :
  length b = 512%nat ->
  b !! 0x1FE%nat = Some 0 -> b !! 0x1FF%nat = Some 0 ->
  exists e, MBR.detectFormat (Buf b) = Throw e /\
            InvalidSignature e /\
            message e =
            "Invalid MBR boot signature. Expected 0xAA55, but saw 0x0".
Proof.
  intros Hlen H0 H1.
  rewrite (detectFormat_signature b 0 0) by (try assumption; lia || discriminate).
  eexists. split; [reflexivity |]. split; reflexivity.
Qed.

Lemma detectFormat_zero_signature_witness :
  length zero_sector = 512%nat /\
  zero_sector !! 0x1FE%nat = Some 0 /\ zero_sector !! 0x1FF%nat = Some 0 /\
  exists e, MBR.detectFormat (Buf zero_sector) = Throw e /\
            InvalidSignature e /\
            message e =
            "Invalid MBR boot signature. Expected 0xAA55, but saw 0x0".
Proof.
  split; [reflexivity |]. split; [reflexivity |]. split; [reflexivity |].
  apply (detectFormat_zero_signature zero_sector); reflexivity.
Defined.

(** C6: the detector either throws or returns one of the six tags.  It
    throws the [TypeError] (InvalidArgumentType) on what is not a
    Buffer, the [Error] (MalformedSector) on a Buffer shorter than 512
    bytes, the [SyntaxError] (InvalidSignature) on a Buffer of at least
    512 bytes whose bytes at 0x1FE, 0x1FF are not 0x55, 0xAA; and it
    throws if and only if one of these three conditions holds. *)
Theorem detectFormat_outcomes (v : Value) :
  wf_value v ->
  match MBR.detectFormat v with
  | Throw e =>
      (InvalidArgumentType e /\ not_a_buffer v) \/
      (MalformedSector e /\ too_short v) \/
      (InvalidSignature e /\ ~ too_short v /\ signature_mismatch v)
  | Normal tag =>
      tag ∈ formats /\
      ~ not_a_buffer v /\ ~ too_short v /\ ~ signature_mismatch v
  end /\
  ((exists e, MBR.detectFormat v = Throw e) <->
   not_a_buffer v \/ too_short v \/ signature_mismatch v).
Proof.
  intros Hwf.
  destruct (isBuffer v) eqn:Hbuf.
  - destruct v as [| | | | |b]; try discriminate Hbuf.
    simpl in Hwf.
    destruct (Nat.lt_ge_cases (length b) 512) as [Hlt|Hge].
    + rewrite detectFormat_short by assumption. split.
      * right; left. split; [reflexivity | now exists b].
      * split; [intros _; right; left; now exists b | intros _; eauto].
    + destruct (lookup_lt_is_Some_2 b 0x1FE%nat) as [x0 H0]; [lia |].
      destruct (lookup_lt_is_Some_2 b 0x1FF%nat) as [x1 H1]; [lia |].
      pose proof (wf_buffer_lookup _ _ _ Hwf H0) as R0.
      pose proof (wf_buffer_lookup _ _ _ Hwf H1) as R1.
      assert (Hshort : ~ too_short (Buf b)).
      { intros (b' & Hb' & Hl). injection Hb' as <-. lia. }
      destruct (decide (x0 = 0x55 /\ x1 = 0xAA)) as [[-> ->]|Hbad].
      * assert (Hsig : valid_signature b) by (split; assumption).
        assert (Hok : ~ signature_mismatch (Buf b)).
        { intros (b' & Hb' & Hn). injection Hb' as <-. contradiction. }
        rewrite detectFormat_valid by assumption. split.
        -- split; [apply first_match_formats |].
           split; [discriminate |]. split; assumption.
        -- split.
           ++ intros [e He]. discriminate He.
           ++ intros [Hn | [Hs | Hm]];
                [discriminate Hn | contradiction | contradiction].
      * assert (Hmis : signature_mismatch (Buf b)).
        { exists b. split; [reflexivity |]. intros [V0 V1].
          rewrite H0 in V0. rewrite H1 in V1.
          injection V0 as ->. injection V1 as ->. now apply Hbad. }
        rewrite (detectFormat_signature b x0 x1)
          by (try assumption; now rewrite signature_bytes).
        split.
        -- right; right. split; [reflexivity |]. split; assumption.
        -- split; [intros _; right; right; assumption | intros _; eauto].
  - rewrite detectFormat_not_buffer by assumption. split.
    + left. split; [reflexivity | exact Hbuf].
    + split; [intros _; left; exact Hbuf | intros _; eauto].
Qed.

Lemma wf_buffer_zero_sector : wf_buffer zero_sector.
Proof. apply Forall_replicate. lia. Qed.

Lemma detectFormat_outcomes_witness :
  wf_value (Buf zero_sector) /\
  ((exists e, MBR.detectFormat (Buf zero_sector) = Throw e) <->
   not_a_buffer (Buf zero_sector) \/ too_short (Buf zero_sector) \/
   signature_mismatch (Buf zero_sector)).
Proof.
  split; [exact wf_buffer_zero_sector |].
  exact (proj2 (detectFormat_outcomes (Buf zero_sector) wf_buffer_zero_sector)).
Defined.

(** ** The NEWLDR record: encoding *)

Lemma checkInt_ok (b : Buffer) (value : Z) (offset ext : nat) (max : Z) :
  0 <= value <= max -> (offset + ext <= length b)%nat ->
  checkInt b value offset ext max = Normal tt.
Proof.
  intros Hv Hl. unfold checkInt.
  destruct (Z.ltb_spec value 0); [lia |].
  destruct (Z.ltb_spec max value); [lia |].
  destruct (Nat.ltb_spec (length b) (offset + ext)); [lia | reflexivity].
Qed.

Lemma checkInt_Normal (b : Buffer) (value : Z) (offset ext : nat) (max : Z) (u : unit) :
  checkInt b value offset ext max = Normal u -> 0 <= value <= max.
Proof.
  unfold checkInt.
  destruct (Z.ltb_spec value 0); [discriminate |].
  destruct (Z.ltb_spec max value); [discriminate |]. lia.
Qed.

Lemma take_inserts (n i : nat) (k l : Buffer) :
  (n <= i)%nat -> take n (list_inserts i k l) = take n l.
Proof.
  intros Hn. apply list_eq. intros j.
  destruct (Nat.lt_ge_cases j n) as [Hj|Hj].
  - rewrite !lookup_take_lt by assumption.
    apply list_lookup_inserts_lt. lia.
  - now rewrite !lookup_take_ge by assumption.
Qed.

(** What the getter stores before the OEM signature. *)
Lemma get_buffer_fits (heap : nat -> Z) (r : NEWLDRRecord.t) :
  fits r ->
  NEWLDRRecord.get_buffer heap r =
  Normal (write_ascii (NEWLDRRecord.signature r) 24
    ([0xEB; NEWLDRRecord.size r] ++ NEWLDR_bytes ++
     [NEWLDRRecord.physicalDrive r] ++
     CHS.get_buffer (NEWLDRRecord.firstCHS r) ++
     [NEWLDRRecord.minDL r; 0; 0; 0] ++
     [Z.land (NEWLDRRecord.firstLBA r) 0xFF;
      Z.land (Z.shiftr (NEWLDRRecord.firstLBA r) 8) 0xFF;
      Z.land (Z.shiftr (NEWLDRRecord.firstLBA r) 16) 0xFF;
      Z.land (Z.shiftr (NEWLDRRecord.firstLBA r) 24) 0xFF] ++
     [Z.land (NEWLDRRecord.patchOffset r) 0xFF;
      Z.land (Z.shiftr (NEWLDRRecord.patchOffset r) 8) 0xFF] ++
     [Z.land (NEWLDRRecord.checksum r) 0xFF;
      Z.land (Z.shiftr (NEWLDRRecord.checksum r) 8) 0xFF] ++
     replicate 6 0)).
Proof.
  intros (Hsize & Hdrive & Hdl & Hlba & Hpatch & Hsum).
  unfold NEWLDRRecord.get_buffer. rewrite fill_Buffer_new.
  unfold writeUInt8, writeUInt16LE, writeUInt32LE.
  repeat (rewrite checkInt_ok by first [assumption | simpl; lia];
          rewrite !bind_Normal).
  reflexivity.
Qed.

(** The getter returns only for a record whose integer fields fit. *)
Lemma get_buffer_Normal_fits (heap : nat -> Z) (r : NEWLDRRecord.t) (b : Buffer) :
  NEWLDRRecord.get_buffer heap r = Normal b -> fits r.
Proof.
  unfold NEWLDRRecord.get_buffer. rewrite fill_Buffer_new.
  unfold writeUInt8, writeUInt16LE, writeUInt32LE. intros H.
  repeat match type of H with
         | context [checkInt ?l ?v ?o ?e ?m] =>
             let E := fresh "E" in
             destruct (checkInt l v o e m) as [?|?] eqn:E;
             [apply checkInt_Normal in E; rewrite !bind_Normal in H
             | discriminate H]
         end.
  unfold fits. tauto.
Qed.

Lemma get_buffer_Normal_iff (heap : nat -> Z) (r : NEWLDRRecord.t) :
  (exists b, NEWLDRRecord.get_buffer heap r = Normal b) <-> fits r.
Proof.
  split.
  - intros [b Hb]. exact (get_buffer_Normal_fits heap r b Hb).
  - intros Hfits. rewrite get_buffer_fits by assumption. eauto.
Qed.

Lemma fits_sample_record : fits sample_record.
Proof. unfold fits; simpl; lia. Qed.

Lemma fits_resized_record : fits resized_record.
Proof. unfold fits; simpl; lia. Qed.

(** C7, as stated, fails: the byte at offset 1 is not a constant of the
    encoder.  Two records that differ in their [size] field only encode
    to buffers that differ at offset 1: the getter writes [this.size]. *)
Lemma get_buffer_size_from_record :
  ~ (exists opcode size_byte tag,
       forall (heap : nat -> Z) (r : NEWLDRRecord.t) (b : Buffer),
         NEWLDRRecord.get_buffer heap r = Normal b ->
         b !! 0%nat = Some opcode /\ b !! 1%nat = Some size_byte /\
         slice b 2 8 = tag).
Proof.
  intros (opcode & size_byte & tag & H).
  destruct (H (fun _ => 0) sample_record _ eq_refl) as (_ & H1 & _).
  destruct (H (fun _ => 0) resized_record _ eq_refl) as (_ & H2 & _).
  vm_compute in H1. vm_compute in H2. congruence.
Qed.

(** C7, amended: for every record whose integer fields fit their widths
    the getter returns a buffer with the jump opcode 0xEB at offset 0 and
    the ASCII tag "NEWLDR" at offsets 2 to 7 of its 30 bytes, whatever
    the record holds; the byte at offset 1 is the record's own [size]
    field. *)
Theorem get_buffer_header (heap : nat -> Z) (r : NEWLDRRecord.t) :
  fits r ->
  exists b, NEWLDRRecord.get_buffer heap r = Normal b /\
            length b = 30%nat /\
            b !! 0%nat = Some 0xEB /\
            b !! 1%nat = Some (NEWLDRRecord.size r) /\
            slice b 2 8 = NEWLDR_bytes /\
            toString_ascii b 2 (Some 8%nat) = "NEWLDR".
Proof.
  intros Hfits. rewrite get_buffer_fits by assumption.
  eexists. split; [reflexivity |].
  unfold toString_ascii, slice, write_ascii. cbn [from_option id].
  rewrite length_inserts, take_inserts by lia.
  rewrite !list_lookup_inserts_lt by lia.
  repeat split; reflexivity.
Qed.

Lemma get_buffer_header_witness :
  fits sample_record /\
  exists b, NEWLDRRecord.get_buffer (fun _ => 0xCC) sample_record = Normal b /\
            length b = 30%nat /\
            b !! 0%nat = Some 0xEB /\
            b !! 1%nat = Some 0x16 /\
            slice b 2 8 = NEWLDR_bytes /\
            toString_ascii b 2 (Some 8%nat) = "NEWLDR".
Proof.
  split; [exact fits_sample_record |].
  exact (get_buffer_header (fun _ => 0xCC) sample_record fits_sample_record).
Defined.

(** C10, as stated, fails: a record whose [size] is 0x100 has no encoded
    output at all; [writeUInt8] refuses a value that does not fit one
    byte and throws. *)
Lemma get_buffer_oversized_throws :
  ~ (forall (heap : nat -> Z) (r : NEWLDRRecord.t),
       exists b, NEWLDRRecord.get_buffer heap r = Normal b /\
                 length b = 30%nat /\ slice b 13 16 = [0; 0; 0]).
Proof.
  intros H.
  destruct (H (fun _ => 0) oversized_record) as (b & Hb & _).
  vm_compute in Hb. discriminate Hb.
Qed.

(** C10, amended: for every record whose integer fields fit their widths
    the getter returns a buffer of exactly 30 bytes whose bytes at
    offsets 13 to 15 are zero, whatever the length of the record's OEM
    signature string. *)
Theorem get_buffer_length_reserved (heap : nat -> Z) (r : NEWLDRRecord.t) :
  fits r ->
  exists b, NEWLDRRecord.get_buffer heap r = Normal b /\
            length b = 30%nat /\ slice b 13 16 = [0; 0; 0].
Proof.
  intros Hfits. rewrite get_buffer_fits by assumption.
  eexists. split; [reflexivity |].
  unfold slice, write_ascii.
  rewrite length_inserts, take_inserts by lia.
  split; reflexivity.
Qed.

Lemma get_buffer_length_reserved_witness :
  fits sample_record /\
  exists b, NEWLDRRecord.get_buffer (fun _ => 0xCC) sample_record = Normal b /\
            length b = 30%nat /\ slice b 13 16 = [0; 0; 0].
Proof.
  split; [exact fits_sample_record |].
  exact (get_buffer_length_reserved (fun _ => 0xCC) sample_record
           fits_sample_record).
Defined.

(** ** The NEWLDR record: decoding *)

Lemma length_30_inv (v : Buffer) :
  length v = 30%nat ->
  exists x0 x1 x2 x3 x4 x5 x6 x7 x8 x9 x10 x11 x12 x13 x14 x15 x16 x17
         x18 x19 x20 x21 x22 x23 x24 x25 x26 x27 x28 x29,
    v = [x0; x1; x2; x3; x4; x5; x6; x7; x8; x9; x10; x11; x12; x13; x14;
         x15; x16; x17; x18; x19; x20; x21; x22; x23; x24; x25; x26; x27;
         x28; x29].
Proof.
  intros H.
  do 30 (destruct v as [|? v]; [discriminate H |]).
  destruct v; [| discriminate H].
  repeat eexists.
Qed.

Lemma ascii_encode_decode (x : Z) :
  ascii_encode (ascii_decode x) = Z.land x 0x7F.
Proof.
  unfold ascii_encode, ascii_decode.
  assert (Hr : 0 <= Z.land x 0x7F < 128).
  { change 0x7F with (Z.ones 7). rewrite Z.land_ones by lia.
    apply Z.mod_pos_bound. reflexivity. }
  rewrite N_ascii_embedding by lia.
  apply Z2N.id. lia.
Qed.

Lemma land_7F_small (x : Z) : 0 <= x < 0x80 -> Z.land x 0x7F = x.
Proof.
  intros Hx. change 0x7F with (Z.ones 7).
  rewrite Z.land_ones by lia. apply Z.mod_small. exact Hx.
Qed.

(** The character codes of a decoded text are the bytes without their
    high bit. *)
Lemma toString_ascii_codes (l : Buffer) :
  ascii_encode <$> list_ascii_of_string
                     (string_of_list_ascii (ascii_decode <$> l)) =
  (fun x => Z.land x 0x7F) <$> l.
Proof.
  rewrite list_ascii_of_string_of_list_ascii, <- list_fmap_compose.
  apply list_fmap_ext. intros i x _. apply ascii_encode_decode.
Qed.

(** C8: on every 30-byte buffer the setter returns, whatever the bytes
    are (no tag or signature is checked), and the fields are read at
    their offsets: size at 1, physical drive at 8, the CHS address from
    bytes 9 to 11, the minimum-DL flag at 12, the LBA as the
    little-endian 32-bit value at 16, the patch offset and the checksum
    as the little-endian 16-bit values at 20 and 22, and the signature as
    the six bytes at offsets 24 to 29 read as ASCII. *)
Theorem set_buffer_fields (this : NEWLDRRecord.t) (v : Buffer) :
  length v = 30%nat -> wf_buffer v ->
  exists r, NEWLDRRecord.set_buffer this (Buf v) = Normal r /\
    NEWLDRRecord.size r = byte_at v 1 /\
    NEWLDRRecord.physicalDrive r = byte_at v 8 /\
    CHS.head (NEWLDRRecord.firstCHS r) = byte_at v 9 /\
    CHS.sector (NEWLDRRecord.firstCHS r) = Z.land (byte_at v 10) 0x3F /\
    CHS.cylinder (NEWLDRRecord.firstCHS r) =
      Z.lor (Z.shiftl (Z.land (byte_at v 10) 0xC0) 2) (byte_at v 11) /\
    NEWLDRRecord.minDL r = byte_at v 12 /\
    NEWLDRRecord.firstLBA r = LE32 v 16 /\
    NEWLDRRecord.patchOffset r = LE16 v 20 /\
    NEWLDRRecord.checksum r = LE16 v 22 /\
    String.length (NEWLDRRecord.signature r) = 6%nat /\
    ascii_encode <$> list_ascii_of_string (NEWLDRRecord.signature r) =
      (fun x => Z.land x 0x7F) <$> slice v 24 30 /\
    (Forall (fun x => x < 0x80) (slice v 24 30) ->
     ascii_encode <$> list_ascii_of_string (NEWLDRRecord.signature r) =
       slice v 24 30).
Proof.
  intros Hlen Hwf.
  destruct (length_30_inv v Hlen) as
    (x0 & x1 & x2 & x3 & x4 & x5 & x6 & x7 & x8 & x9 & x10 & x11 & x12 &
     x13 & x14 & x15 & x16 & x17 & x18 & x19 & x20 & x21 & x22 & x23 &
     x24 & x25 & x26 & x27 & x28 & x29 & ->).
  pose proof (wf_buffer_lookup _ 16 _ Hwf eq_refl) as R16.
  pose proof (wf_buffer_lookup _ 17 _ Hwf eq_refl) as R17.
  pose proof (wf_buffer_lookup _ 18 _ Hwf eq_refl) as R18.
  pose proof (wf_buffer_lookup _ 20 _ Hwf eq_refl) as R20.
  pose proof (wf_buffer_lookup _ 22 _ Hwf eq_refl) as R22.
  eexists. split; [reflexivity |].
  cbn [NEWLDRRecord.size NEWLDRRecord.physicalDrive NEWLDRRecord.firstCHS
       NEWLDRRecord.minDL NEWLDRRecord.firstLBA NEWLDRRecord.patchOffset
       NEWLDRRecord.checksum NEWLDRRecord.signature].
  repeat (split; [reflexivity |]).
  split; [| split; [| split; [| split; [| split]]]].
  - unfold LE32, byte_at. cbn [lookup list_lookup from_option id Nat.add].
    rewrite (lor_shiftl_add x16 x17 8) by lia.
    rewrite lor_shiftl_add; change (2 ^ 8) with 256;
      change (2 ^ 16) with 65536; change (2 ^ 24) with 16777216; lia.
  - unfold LE16, byte_at. cbn [lookup list_lookup from_option id Nat.add].
    rewrite lor_shiftl_add; change (2 ^ 8) with 256; lia.
  - unfold LE16, byte_at. cbn [lookup list_lookup from_option id Nat.add].
    rewrite lor_shiftl_add; change (2 ^ 8) with 256; lia.
  - reflexivity.
  - apply toString_ascii_codes.
  - intros Hascii.
    unfold toString_ascii. cbn [from_option id].
    rewrite toString_ascii_codes.
    change (slice _ 24 (length _)) with [x24; x25; x26; x27; x28; x29].
    change (slice _ 24 30) with [x24; x25; x26; x27; x28; x29] in *.
    pose proof (fun i x (H : _ !! i = Some x) =>
                  wf_buffer_lookup _ (24 + i) x Hwf H) as Hlow.
    rewrite Forall_lookup in Hascii.
    apply list_eq. intros i. rewrite list_lookup_fmap.
    destruct ([x24; x25; x26; x27; x28; x29] !! i) as [x|] eqn:Hi;
      [| reflexivity].
    simpl. f_equal. apply land_7F_small.
    split; [apply (Hlow i x Hi) | apply (Hascii i x Hi)].
Qed.

Lemma wf_buffer_sample_buffer : wf_buffer sample_buffer.
Proof. unfold wf_buffer, sample_buffer. repeat constructor; lia. Qed.

Lemma set_buffer_fields_witness :
  length sample_buffer = 30%nat /\ wf_buffer sample_buffer /\
  exists r, NEWLDRRecord.set_buffer sample_record (Buf sample_buffer) = Normal r /\
    NEWLDRRecord.size r = 0x16 /\
    NEWLDRRecord.firstLBA r = 0x12345678 /\
    NEWLDRRecord.patchOffset r = 0x0024 /\
    NEWLDRRecord.checksum r = 0xBEEF /\
    NEWLDRRecord.signature r = "MSWIN4".
Proof.
  split; [reflexivity |]. split; [exact wf_buffer_sample_buffer |].
  destruct (set_buffer_fields sample_record sample_buffer eq_refl
              wf_buffer_sample_buffer)
    as (r & Hr & Hsize & _ & _ & _ & _ & _ & Hlba & Hpatch & Hsum & _).
  exists r. split; [exact Hr |].
  split; [exact Hsize |]. split; [exact Hlba |].
  split; [exact Hpatch |]. split; [exact Hsum |].
  vm_compute in Hr. injection Hr as <-. reflexivity.
Defined.

(** C9: the setter reads the bytes at offsets 1, 8 to 12 and 16 onward
    only.  Two 30-byte buffers that agree at these offsets decode, from
    the same record, to the same record, however they differ at offsets
    0, 2 to 7 and 13 to 15; and the decoding does return. *)
Theorem set_buffer_field_offsets (this : NEWLDRRecord.t) (v w : Buffer) :
  length v = 30%nat -> length w = 30%nat ->
  (forall i : nat, field_offset i = true -> v !! i = w !! i) ->
  NEWLDRRecord.set_buffer this (Buf v) = NEWLDRRecord.set_buffer this (Buf w) /\
  exists r, NEWLDRRecord.set_buffer this (Buf v) = Normal r.
Proof.
  intros Hv Hw Hagree.
  destruct (length_30_inv v Hv) as
    (x0 & x1 & x2 & x3 & x4 & x5 & x6 & x7 & x8 & x9 & x10 & x11 & x12 &
     x13 & x14 & x15 & x16 & x17 & x18 & x19 & x20 & x21 & x22 & x23 &
     x24 & x25 & x26 & x27 & x28 & x29 & ->).
  destruct (length_30_inv w Hw) as
    (y0 & y1 & y2 & y3 & y4 & y5 & y6 & y7 & y8 & y9 & y10 & y11 & y12 &
     y13 & y14 & y15 & y16 & y17 & y18 & y19 & y20 & y21 & y22 & y23 &
     y24 & y25 & y26 & y27 & y28 & y29 & ->).
  assert (Hat : forall i x y,
             field_offset i = true ->
             [x0; x1; x2; x3; x4; x5; x6; x7; x8; x9; x10; x11; x12; x13;
              x14; x15; x16; x17; x18; x19; x20; x21; x22; x23; x24; x25;
              x26; x27; x28; x29] !! i = Some x ->
             [y0; y1; y2; y3; y4; y5; y6; y7; y8; y9; y10; y11; y12; y13;
              y14; y15; y16; y17; y18; y19; y20; y21; y22; y23; y24; y25;
              y26; y27; y28; y29] !! i = Some y ->
             x = y).
  { intros i x y Hi Hx Hy. rewrite (Hagree i Hi) in Hx. congruence. }
  rewrite (Hat 1%nat x1 y1), (Hat 8%nat x8 y8), (Hat 9%nat x9 y9),
    (Hat 10%nat x10 y10), (Hat 11%nat x11 y11), (Hat 12%nat x12 y12),
    (Hat 16%nat x16 y16), (Hat 17%nat x17 y17), (Hat 18%nat x18 y18),
    (Hat 19%nat x19 y19), (Hat 20%nat x20 y20), (Hat 21%nat x21 y21),
    (Hat 22%nat x22 y22), (Hat 23%nat x23 y23), (Hat 24%nat x24 y24),
    (Hat 25%nat x25 y25), (Hat 26%nat x26 y26), (Hat 27%nat x27 y27),
    (Hat 28%nat x28 y28), (Hat 29%nat x29 y29) by reflexivity.
  split; [reflexivity | eexists; reflexivity].
Qed.

Lemma set_buffer_field_offsets_witness :
  length sample_buffer = 30%nat /\ length scrambled_buffer = 30%nat /\
  sample_buffer <> scrambled_buffer /\
  NEWLDRRecord.set_buffer sample_record (Buf sample_buffer) =
  NEWLDRRecord.set_buffer sample_record (Buf scrambled_buffer).
Proof.
  split; [reflexivity |]. split; [reflexivity |]. split; [discriminate |].
  apply (set_buffer_field_offsets sample_record sample_buffer scrambled_buffer
           eq_refl eq_refl).
  intros i Hi.
  do 30 (destruct i as [|i]; [first [reflexivity | discriminate Hi] |]).
  reflexivity.
Defined.

(** ** Further properties of the format detector *)

Lemma marker_offsets_elem (i : nat) :
  In i marker_offsets -> i ∈ marker_offsets.
Proof. apply list_elem_of_In. Qed.

(** X1: on buffers of at least 512 bytes the outcome of the detector, a
    tag or the boot signature error with its message, is a function of
    the ten bytes at the marker offsets: no other byte, and no byte after
    the first 512, has any influence. *)
Theorem detectFormat_marker_offsets (b b' : Buffer) :
  (512 <= length b)%nat -> (512 <= length b')%nat ->
  (forall i : nat, i ∈ marker_offsets -> b !! i = b' !! i) ->
  MBR.detectFormat (Buf b) = MBR.detectFormat (Buf b').
Proof.
  intros Hb Hb' H.
  unfold MBR.detectFormat, readUInt16LE, index_is.
  destruct (Nat.ltb_spec (length b) 512); [lia |].
  destruct (Nat.ltb_spec (length b') 512); [lia |].
  rewrite (NEWLDR_test_false b Hb), (NEWLDR_test_false b' Hb').
  change (0x1FE + 1)%nat with 0x1FF%nat.
  rewrite (H 0x0DA%nat), (H 0x0DB%nat), (H 0x0FC%nat), (H 0x0FD%nat),
    (H 0x17C%nat), (H 0x17D%nat), (H 0x1AC%nat), (H 0x1AD%nat),
    (H 0x1FE%nat), (H 0x1FF%nat)
    by (apply marker_offsets_elem; simpl; tauto).
  reflexivity.
Qed.

Lemma detectFormat_marker_offsets_witness :
  (512 <= length blank_sector)%nat /\
  (512 <= length partitioned_sector)%nat /\
  blank_sector <> partitioned_sector /\
  MBR.detectFormat (Buf blank_sector) =
  MBR.detectFormat (Buf partitioned_sector).
Proof.
  assert (H1 : (512 <= length blank_sector)%nat)
    by (apply Nat.leb_le; vm_compute; reflexivity).
  assert (H2 : (512 <= length partitioned_sector)%nat)
    by (apply Nat.leb_le; vm_compute; reflexivity).
  split; [exact H1 |]. split; [exact H2 |].
  split; [intros E; apply (f_equal length) in E; vm_compute in E;
          discriminate E |].
  apply (detectFormat_marker_offsets blank_sector partitioned_sector H1 H2).
  intros i Hi. apply list_elem_of_In in Hi. simpl in Hi.
  repeat (destruct Hi as [<-|Hi]; [vm_compute; reflexivity |]).
  destruct Hi.
Defined.

Lemma detectFormat_Normal_sector (b : Buffer) (tag : string) :
  wf_buffer b -> MBR.detectFormat (Buf b) = Normal tag -> sector b.
Proof.
  intros Hwf H.
  destruct (Nat.lt_ge_cases (length b) 512) as [Hlt|Hge].
  - rewrite detectFormat_short in H by assumption. discriminate H.
  - destruct (lookup_lt_is_Some_2 b 0x1FE%nat) as [x0 H0]; [lia |].
    destruct (lookup_lt_is_Some_2 b 0x1FF%nat) as [x1 H1]; [lia |].
    pose proof (wf_buffer_lookup _ _ _ Hwf H0) as R0.
    pose proof (wf_buffer_lookup _ _ _ Hwf H1) as R1.
    destruct (decide (x0 = 0x55 /\ x1 = 0xAA)) as [[-> ->]|Hbad].
    + split; [exact Hge | split; assumption].
    + rewrite (detectFormat_signature b x0 x1) in H
        by (try assumption; now rewrite signature_bytes).
      discriminate H.
Qed.

(** On a buffer of at least 512 bytes the NEWLDR rule never fires, which
    leaves four marker tests. *)
Lemma first_match_table (b : Buffer) :
  (512 <= length b)%nat ->
  first_match b =
  if bool_decide (AST_marker b) then "AST"
  else if bool_decide (DM_marker b) then "DM"
  else if bool_decide (AAP_marker b) then "AAP"
  else if bool_decide (MODERN_marker b) then "MODERN"
  else "CLASSIC".
Proof.
  intros Hlen. unfold first_match, chain. cbn [find fst snd].
  rewrite (NEWLDR_test_false b Hlen).
  unfold AST_marker, DM_marker, AAP_marker, MODERN_marker, index_is.
  rewrite !bool_decide_and.
  repeat match goal with
         | |- context [if ?c then _ else _] => destruct c
         end; reflexivity.
Qed.

(** X2: the decision table of the detector on buffers of bytes.  A tag is
    returned exactly on a buffer of at least 512 bytes with the boot
    signature; AST exactly with the AST marker, DM exactly with the DM
    marker and no AST marker, AAP exactly with the AAP marker and neither
    of those, MODERN exactly with zeros at 0x0DA, 0x0DB and none of the
    three, CLASSIC exactly when nothing matches. *)
Theorem detectFormat_table (b : Buffer) :
  wf_buffer b ->
  (MBR.detectFormat (Buf b) = Normal "AST" <->
   sector b /\ AST_marker b) /\
  (MBR.detectFormat (Buf b) = Normal "DM" <->
   sector b /\ ~ AST_marker b /\ DM_marker b) /\
  (MBR.detectFormat (Buf b) = Normal "AAP" <->
   sector b /\ ~ AST_marker b /\ ~ DM_marker b /\ AAP_marker b) /\
  (MBR.detectFormat (Buf b) = Normal "MODERN" <->
   sector b /\ ~ AST_marker b /\ ~ DM_marker b /\ ~ AAP_marker b /\
   MODERN_marker b) /\
  (MBR.detectFormat (Buf b) = Normal "CLASSIC" <->
   sector b /\ ~ AST_marker b /\ ~ DM_marker b /\ ~ AAP_marker b /\
   ~ MODERN_marker b).
Proof.
  intros Hwf.
  repeat match goal with |- _ /\ _ => split end.
  all: split;
    [ intros H; pose proof (detectFormat_Normal_sector b _ Hwf H) as Hs;
      rewrite detectFormat_valid, first_match_table in H by apply Hs;
      repeat case_bool_decide; try discriminate H; tauto
    | intros (Hs & Hm);
      rewrite detectFormat_valid, first_match_table by apply Hs;
      repeat case_bool_decide; try reflexivity; tauto ].
Qed.

Lemma wf_buffer_blank_sector : wf_buffer blank_sector.
Proof.
  apply Forall_app. split; [apply Forall_replicate; lia |].
  repeat constructor; lia.
Qed.

Lemma detectFormat_table_witness :
  wf_buffer blank_sector /\
  (MBR.detectFormat (Buf blank_sector) = Normal "MODERN" <->
   sector blank_sector /\ ~ AST_marker blank_sector /\
   ~ DM_marker blank_sector /\ ~ AAP_marker blank_sector /\
   MODERN_marker blank_sector).
Proof.
  split; [exact wf_buffer_blank_sector |].
  exact (proj1 (proj2 (proj2 (proj2
           (detectFormat_table blank_sector wf_buffer_blank_sector))))).
Defined.




(** ** [MBR.parse] *)

Lemma length_slice (b : Buffer) (start end_ : nat) :
  length (slice b start end_) = (Nat.min end_ (length b) - start)%nat.
Proof. unfold slice. now rewrite length_drop, length_take. Qed.

(** Whatever the detector returns is one of the five tags other than
    NEWLDR, and it returns on buffers of at least 512 bytes only. *)
Lemma detectFormat_Normal_reachable (b : Buffer) (tag : string) :
  MBR.detectFormat (Buf b) = Normal tag ->
  tag ∈ reachable_formats /\ (512 <= length b)%nat.
Proof.
  unfold MBR.detectFormat.
  destruct (Nat.ltb_spec (length b) 512) as [Hlt|Hge]; [discriminate |].
  destruct (readUInt16LE b 510) as [sig|e]; [| discriminate].
  rewrite bind_Normal.
  destruct (negb (sig =? 43605)).
  - destruct (readUInt16LE b 510); discriminate.
  - rewrite (NEWLDR_test_false b Hge).
    repeat match goal with
           | |- context [if ?c then _ else _] => destruct c
           end;
      intros H; injection H as <-; (split; [| exact Hge]);
      apply list_elem_of_In; simpl; tauto.
Qed.

(** X4: [MBR.parse] on a Buffer whose window, from [start] (0 when
    omitted) to [end] (the length when omitted, and never past it), holds
    fewer than 512 bytes throws the "Buffer too small" [Error]; no format
    constructor is run. *)
Theorem parse_window_too_small {Instance : Type}
    (construct : string -> Buffer -> Completion Instance)
    (b : Buffer) (start end_ : option nat) :
  (Nat.min (default (length b) end_) (length b) - default 0%nat start < 512)%nat ->
  MBR.parse construct b start end_ =
  throw Error "Buffer too small (must be at least 512 bytes)".
Proof.
  intros Hw. unfold MBR.parse.
  rewrite detectFormat_short by (now rewrite length_slice).
  reflexivity.
Qed.

Lemma parse_window_too_small_witness :
  (Nat.min (default (length two_sectors) None) (length two_sectors)
   - default 0%nat (Some 600%nat) < 512)%nat /\
  MBR.parse record_format two_sectors (Some 600%nat) None =
  throw Error "Buffer too small (must be at least 512 bytes)".
Proof.
  assert (H : (Nat.min (default (length two_sectors) None) (length two_sectors)
               - default 0%nat (Some 600%nat) < 512)%nat)
    by (apply Nat.ltb_lt; vm_compute; reflexivity).
  split; [exact H |].
  exact (parse_window_too_small record_format two_sectors (Some 600%nat) None H).
Defined.

(** X5: [MBR.parse] on a Buffer whose window is at least 512 bytes long
    and ends its first 512 bytes with the boot signature hands that
    window, with the tag of the first matching rule, to the constructor
    of the format; the tag is CLASSIC, MODERN, AAP, AST or DM. *)
Theorem parse_sector {Instance : Type}
    (construct : string -> Buffer -> Completion Instance)
    (b : Buffer) (start end_ : option nat) :
  sector (window b start end_) ->
  MBR.parse construct b start end_ =
  construct (first_match (window b start end_)) (window b start end_) /\
  first_match (window b start end_) ∈ reachable_formats.
Proof.
  intros [Hlen Hsig]. unfold MBR.parse. fold (window b start end_).
  pose proof (detectFormat_valid _ Hlen Hsig) as Hd.
  rewrite Hd. split; [reflexivity |].
  exact (proj1 (detectFormat_Normal_reachable _ _ Hd)).
Qed.

Lemma parse_sector_witness :
  sector (window two_sectors (Some 512%nat) None) /\
  MBR.parse record_format two_sectors (Some 512%nat) None =
  Normal ("MODERN", 512%nat).
Proof.
  assert (H : sector (window two_sectors (Some 512%nat) None)).
  { split; [apply Nat.leb_le; vm_compute; reflexivity |].
    split; vm_compute; reflexivity. }
  split; [exact H |].
  exact (proj1 (parse_sector record_format two_sectors (Some 512%nat) None H)).
Defined.

(** X6: [MBR.parse] never runs the constructor of the NEWLDR format, nor
    any constructor on fewer than 512 bytes: two families of
    constructors that agree on the tags CLASSIC, MODERN, AAP, AST and DM
    and on windows of at least 512 bytes give the same parse. *)
Theorem parse_never_NEWLDR {Instance : Type}
    (construct construct' : string -> Buffer -> Completion Instance)
    (b : Buffer) (start end_ : option nat) :
  (forall (format : string) (w : Buffer),
     format ∈ reachable_formats -> (512 <= length w)%nat ->
     construct format w = construct' format w) ->
  MBR.parse construct b start end_ = MBR.parse construct' b start end_.
Proof.
  intros Hsame. unfold MBR.parse.
  destruct (MBR.detectFormat (Buf (slice b _ _))) as [tag|e] eqn:Hd;
    [| reflexivity].
  rewrite !bind_Normal.
  destruct (detectFormat_Normal_reachable _ _ Hd) as [Htag Hlen].
  now apply Hsame.
Qed.

Lemma parse_never_NEWLDR_witness :
  (forall (format : string) (w : Buffer),
     format ∈ reachable_formats -> (512 <= length w)%nat ->
     record_format format w = refuse_NEWLDR format w) /\
  record_format "NEWLDR" newldr_sector <> refuse_NEWLDR "NEWLDR" newldr_sector /\
  MBR.parse record_format newldr_sector None None =
  MBR.parse refuse_NEWLDR newldr_sector None None.
Proof.
  assert (H : forall (format : string) (w : Buffer),
             format ∈ reachable_formats -> (512 <= length w)%nat ->
             record_format format w = refuse_NEWLDR format w).
  { intros format w Hf _. apply list_elem_of_In in Hf. simpl in Hf.
    repeat (destruct Hf as [<-|Hf]; [reflexivity |]). destruct Hf. }
  split; [exact H |]. split; [discriminate |].
  exact (parse_never_NEWLDR record_format refuse_NEWLDR newldr_sector
           None None H).
Defined.

(** ** Further properties of the NEWLDR getter *)

Lemma land_FF_range (x : Z) : 0 <= Z.land x 0xFF < 256.
Proof.
  change 0xFF with (Z.ones 8). rewrite Z.land_ones by lia.
  apply Z.mod_pos_bound. reflexivity.
Qed.

Lemma land_FF_byte (x : Z) : Z.land x 0xFF = x -> 0 <= x < 256.
Proof. intros <-. apply land_FF_range. Qed.

(** The two bytes [writeUInt16LE] stores are the little-endian digits. *)
Lemma LE16_digits (v : Z) :
  0 <= v <= 0xFFFF ->
  Z.land v 0xFF + 2 ^ 8 * Z.land (Z.shiftr v 8) 0xFF = v.
Proof.
  intros Hv. change 0xFF with (Z.ones 8).
  rewrite !Z.land_ones, Z.shiftr_div_pow2 by lia.
  change (2 ^ 8) with 256. Z.div_mod_to_equations. lia.
Qed.

Lemma LE32_digits (v : Z) :
  0 <= v <= 0xFFFFFFFF ->
  Z.land v 0xFF + 2 ^ 8 * Z.land (Z.shiftr v 8) 0xFF +
  2 ^ 16 * Z.land (Z.shiftr v 16) 0xFF +
  2 ^ 24 * Z.land (Z.shiftr v 24) 0xFF = v.
Proof.
  intros Hv. change 0xFF with (Z.ones 8).
  rewrite !Z.land_ones, !Z.shiftr_div_pow2 by lia.
  change (2 ^ 8) with 256. change (2 ^ 16) with 65536.
  change (2 ^ 24) with 16777216. Z.div_mod_to_equations. lia.
Qed.

(** What [readUInt16LE] and [readUInt32LE] compute from bytes. *)
Lemma lor16_sum (x0 x1 : Z) :
  0 <= x0 < 256 -> Z.lor x0 (Z.shiftl x1 8) = x0 + 2 ^ 8 * x1.
Proof. intros H0. rewrite lor_shiftl_add by lia. lia. Qed.

Lemma lor32_sum (x0 x1 x2 x3 : Z) :
  0 <= x0 < 256 -> 0 <= x1 < 256 -> 0 <= x2 < 256 ->
  Z.lor (Z.lor x0 (Z.shiftl x1 8)) (Z.shiftl x2 16) + x3 * 0x1000000 =
  x0 + 2 ^ 8 * x1 + 2 ^ 16 * x2 + 2 ^ 24 * x3.
Proof.
  intros H0 H1 H2. rewrite (lor_shiftl_add x0 x1 8) by lia.
  rewrite lor_shiftl_add;
    change (2 ^ 8) with 256; change (2 ^ 16) with 65536;
    change (2 ^ 24) with 16777216; lia.
Qed.

Lemma inserts_0_replicate (k : Buffer) (n m : nat) (x : Z) :
  (n <= m)%nat ->
  list_inserts 0 k (replicate n x) = take n (k ++ replicate m x).
Proof.
  revert n. induction k as [|y k IH]; intros n Hn.
  - simpl. rewrite take_replicate. f_equal. lia.
  - destruct n as [|n]; cbn [list_inserts replicate].
    + now rewrite list_inserts_nil.
    + rewrite list_inserts_cons. cbn. f_equal. apply IH. lia.
Qed.

Lemma write_ascii_tail (s : string) (fields : Buffer) :
  length fields = 24%nat ->
  write_ascii s 24 (fields ++ replicate 6 0) = fields ++ signature_field s.
Proof.
  intros Hlen. unfold write_ascii, signature_field, codes.
  rewrite <- Hlen at 1. rewrite <- (Nat.add_0_r (length fields)).
  rewrite list_inserts_app_r. f_equal.
  now apply inserts_0_replicate.
Qed.

(** The buffer the getter returns, in closed form. *)
Lemma get_buffer_app (heap : nat -> Z) (r : NEWLDRRecord.t) :
  fits r ->
  NEWLDRRecord.get_buffer heap r =
  Normal (encoded_fields r ++ signature_field (NEWLDRRecord.signature r)).
Proof.
  intros Hfits. rewrite get_buffer_fits by assumption. f_equal.
  apply (write_ascii_tail (NEWLDRRecord.signature r) (encoded_fields r)).
  reflexivity.
Qed.

Lemma length_signature_field (s : string) : length (signature_field s) = 6%nat.
Proof.
  unfold signature_field.
  rewrite length_take, length_app, length_replicate. lia.
Qed.

Lemma wf_signature_field (s : string) : wf_buffer (signature_field s).
Proof.
  unfold signature_field, codes. apply Forall_take, Forall_app. split.
  - apply Forall_fmap, Forall_true. intros c. unfold compose, ascii_encode.
    pose proof (N_ascii_bounded c). lia.
  - apply Forall_replicate. lia.
Qed.

Lemma wf_encoded_fields (r : NEWLDRRecord.t) :
  fits r -> wf_buffer (encoded_fields r).
Proof.
  intros (Hsize & Hdrive & Hdl & Hlba & Hpatch & Hsum).
  unfold encoded_fields, NEWLDR_bytes, CHS.get_buffer, wf_buffer. cbn [app].
  repeat (apply Forall_cons; split;
          [first [lia | apply land_FF_range | idtac] |]);
    [| apply Forall_nil; exact I].
  apply land_FF_byte.
  rewrite Z.land_lor_distr_l, <- !Z.land_assoc. reflexivity.
Qed.

Lemma length_codes (s : string) : length (codes s) = String.length s.
Proof.
  unfold codes. rewrite length_fmap.
  induction s as [|c s IH]; simpl; congruence.
Qed.

Lemma signature_field_long (s : string) :
  (6 <= String.length s)%nat -> signature_field s = take 6 (codes s).
Proof.
  intros Hs. unfold signature_field.
  apply take_app_le. now rewrite length_codes.
Qed.

Lemma signature_field_short (s : string) :
  (String.length s <= 6)%nat ->
  signature_field s = codes s ++ replicate (6 - String.length s) 0.
Proof.
  intros Hs. unfold signature_field.
  rewrite take_app_ge by (now rewrite length_codes).
  rewrite length_codes, take_replicate. do 2 f_equal. lia.
Qed.

Lemma drop_24_fields (r : NEWLDRRecord.t) (tail : Buffer) :
  drop 24 (encoded_fields r ++ tail) = tail.
Proof. reflexivity. Qed.

(** X7: the getter never returns what the fresh allocation held: its
    outcome is the same whatever the uninitialised memory contains. *)
Theorem get_buffer_heap_independent (heap heap' : nat -> Z) (r : NEWLDRRecord.t) :
  NEWLDRRecord.get_buffer heap r = NEWLDRRecord.get_buffer heap' r.
Proof.
  unfold NEWLDRRecord.get_buffer. now rewrite !fill_Buffer_new.
Qed.

(** X8: for a record whose integer fields fit, the getter returns a
    buffer of bytes with the physical drive at offset 8, the bytes of the
    CHS address at 9 to 11, the minimum-DL flag at 12, the LBA as a
    little-endian 32-bit value at 16, and the patch offset and the
    checksum as little-endian 16-bit values at 20 and 22. *)
Theorem get_buffer_layout (heap : nat -> Z) (r : NEWLDRRecord.t) :
  fits r ->
  exists b, NEWLDRRecord.get_buffer heap r = Normal b /\
    wf_buffer b /\
    b !! 8%nat = Some (NEWLDRRecord.physicalDrive r) /\
    slice b 9 12 = CHS.get_buffer (NEWLDRRecord.firstCHS r) /\
    b !! 12%nat = Some (NEWLDRRecord.minDL r) /\
    LE32 b 16 = NEWLDRRecord.firstLBA r /\
    LE16 b 20 = NEWLDRRecord.patchOffset r /\
    LE16 b 22 = NEWLDRRecord.checksum r.
Proof.
  intros Hfits. rewrite get_buffer_app by assumption.
  eexists. split; [reflexivity |].
  split; [apply Forall_app; split;
          [now apply wf_encoded_fields | apply wf_signature_field] |].
  destruct Hfits as (Hsize & Hdrive & Hdl & Hlba & Hpatch & Hsum).
  split; [reflexivity |]. split; [reflexivity |]. split; [reflexivity |].
  split; [exact (LE32_digits _ Hlba) |].
  split; [exact (LE16_digits _ Hpatch) | exact (LE16_digits _ Hsum)].
Qed.

Lemma fits_exact_record : fits exact_record.
Proof. unfold fits; simpl; lia. Qed.

Lemma fits_short_signature_record : fits short_signature_record.
Proof. unfold fits; simpl; lia. Qed.

Lemma get_buffer_layout_witness :
  fits exact_record /\
  exists b, NEWLDRRecord.get_buffer (fun _ => 0xCC) exact_record = Normal b /\
    wf_buffer b /\
    b !! 8%nat = Some 0x80 /\
    slice b 9 12 = CHS.get_buffer (CHS.mkCHS 1023 254 63) /\
    b !! 12%nat = Some 0x80 /\
    LE32 b 16 = 0x12345678 /\
    LE16 b 20 = 0x0024 /\
    LE16 b 22 = 0xBEEF.
Proof.
  split; [exact fits_exact_record |].
  exact (get_buffer_layout (fun _ => 0xCC) exact_record fits_exact_record).
Defined.

(** X9: the OEM signature occupies offsets 24 to 29 of the buffer the
    getter returns: a string of six characters or more is cut to the
    codes of its first six, a shorter one is followed by zero bytes. *)
Theorem get_buffer_signature (heap : nat -> Z) (r : NEWLDRRecord.t) :
  fits r ->
  exists b, NEWLDRRecord.get_buffer heap r = Normal b /\
    ((6 <= String.length (NEWLDRRecord.signature r))%nat ->
     slice b 24 30 = take 6 (codes (NEWLDRRecord.signature r))) /\
    ((String.length (NEWLDRRecord.signature r) <= 6)%nat ->
     slice b 24 30 =
     codes (NEWLDRRecord.signature r) ++
     replicate (6 - String.length (NEWLDRRecord.signature r)) 0).
Proof.
  intros Hfits. rewrite get_buffer_app by assumption.
  eexists. split; [reflexivity |].
  assert (E : slice (encoded_fields r ++
                     signature_field (NEWLDRRecord.signature r)) 24 30 =
              signature_field (NEWLDRRecord.signature r)).
  { unfold slice. rewrite take_ge.
    - apply drop_24_fields.
    - rewrite length_app, length_signature_field. cbn. lia. }
  rewrite E. split; intros Hs.
  - now apply signature_field_long.
  - now apply signature_field_short.
Qed.

Lemma get_buffer_signature_witness :
  fits short_signature_record /\
  (String.length (NEWLDRRecord.signature short_signature_record) <= 6)%nat /\
  exists b, NEWLDRRecord.get_buffer (fun _ => 0xCC) short_signature_record = Normal b /\
            slice b 24 30 = [0x44; 0x4F; 0x53; 0; 0; 0].
Proof.
  assert (Hs : (String.length (NEWLDRRecord.signature short_signature_record)
                <= 6)%nat) by (simpl; lia).
  split; [exact fits_short_signature_record |]. split; [exact Hs |].
  destruct (get_buffer_signature (fun _ => 0xCC) short_signature_record
              fits_short_signature_record) as (b & Hb & _ & Hshort).
  exists b. split; [exact Hb |]. exact (Hshort Hs).
Defined.

(** ** Further properties of the NEWLDR setter and constructor *)

(** The setter on a buffer that has the 14 bytes it reads. *)
Lemma set_buffer_Some (this : NEWLDRRecord.t) (v : Buffer)
    (x1 x8 x12 x16 x17 x18 x19 x20 x21 x22 x23 : Z) :
  v !! 1%nat = Some x1 -> v !! 8%nat = Some x8 -> v !! 12%nat = Some x12 ->
  v !! 16%nat = Some x16 -> v !! 17%nat = Some x17 ->
  v !! 18%nat = Some x18 -> v !! 19%nat = Some x19 ->
  v !! 20%nat = Some x20 -> v !! 21%nat = Some x21 ->
  v !! 22%nat = Some x22 -> v !! 23%nat = Some x23 ->
  NEWLDRRecord.set_buffer this (Buf v) =
  Normal {| NEWLDRRecord.size := x1;
            NEWLDRRecord.physicalDrive := x8;
            NEWLDRRecord.firstCHS :=
              CHS.set_buffer (NEWLDRRecord.firstCHS this) (slice v 9 12);
            NEWLDRRecord.minDL := x12;
            NEWLDRRecord.firstLBA :=
              Z.lor (Z.lor x16 (Z.shiftl x17 8)) (Z.shiftl x18 16)
              + x19 * 0x1000000;
            NEWLDRRecord.patchOffset := Z.lor x20 (Z.shiftl x21 8);
            NEWLDRRecord.checksum := Z.lor x22 (Z.shiftl x23 8);
            NEWLDRRecord.signature := toString_ascii v 24 None |}.
Proof.
  intros H1 H8 H12 H16 H17 H18 H19 H20 H21 H22 H23.
  unfold NEWLDRRecord.set_buffer, readUInt8, readUInt16LE, readUInt32LE.
  cbn [Nat.add].
  rewrite H1, H8, H12, H16, H17, H18, H19, H20, H21, H22, H23.
  reflexivity.
Qed.

Lemma set_buffer_long (this : NEWLDRRecord.t) (v : Buffer) :
  (24 <= length v)%nat ->
  exists x1 x8 x12 x16 x17 x18 x19 x20 x21 x22 x23,
    v !! 1%nat = Some x1 /\ v !! 8%nat = Some x8 /\ v !! 12%nat = Some x12 /\
    v !! 16%nat = Some x16 /\ v !! 17%nat = Some x17 /\
    v !! 18%nat = Some x18 /\ v !! 19%nat = Some x19 /\
    v !! 20%nat = Some x20 /\ v !! 21%nat = Some x21 /\
    v !! 22%nat = Some x22 /\ v !! 23%nat = Some x23.
Proof.
  intros Hlen.
  destruct (lookup_lt_is_Some_2 v 1%nat) as [x1 H1]; [lia |].
  destruct (lookup_lt_is_Some_2 v 8%nat) as [x8 H8]; [lia |].
  destruct (lookup_lt_is_Some_2 v 12%nat) as [x12 H12]; [lia |].
  destruct (lookup_lt_is_Some_2 v 16%nat) as [x16 H16]; [lia |].
  destruct (lookup_lt_is_Some_2 v 17%nat) as [x17 H17]; [lia |].
  destruct (lookup_lt_is_Some_2 v 18%nat) as [x18 H18]; [lia |].
  destruct (lookup_lt_is_Some_2 v 19%nat) as [x19 H19]; [lia |].
  destruct (lookup_lt_is_Some_2 v 20%nat) as [x20 H20]; [lia |].
  destruct (lookup_lt_is_Some_2 v 21%nat) as [x21 H21]; [lia |].
  destruct (lookup_lt_is_Some_2 v 22%nat) as [x22 H22]; [lia |].
  destruct (lookup_lt_is_Some_2 v 23%nat) as [x23 H23]; [lia |].
  exists x1, x8, x12, x16, x17, x18, x19, x20, x21, x22, x23.
  repeat split; assumption.
Qed.

Lemma set_buffer_Normal_length (this r : NEWLDRRecord.t) (v : Buffer) :
  NEWLDRRecord.set_buffer this (Buf v) = Normal r -> (24 <= length v)%nat.
Proof.
  unfold NEWLDRRecord.set_buffer, readUInt8, readUInt16LE, readUInt32LE.
  cbn [Nat.add]. intros H.
  destruct (v !! 23%nat) as [x23|] eqn:H23.
  - apply lookup_lt_Some in H23. lia.
  - repeat match type of H with
           | context [match ?o with Some _ => _ | None => _ end] =>
               destruct o; try discriminate H
           end.
Qed.

Lemma set_buffer_too_short_aux (this : NEWLDRRecord.t) (v : Buffer) (e : Exception) :
  NEWLDRRecord.set_buffer this (Buf v) = Throw e -> (length v < 24)%nat.
Proof.
  intros H.
  destruct (Nat.lt_ge_cases (length v) 24) as [Hlt|Hge]; [exact Hlt |].
  destruct (set_buffer_long this v Hge) as
    (x1 & x8 & x12 & x16 & x17 & x18 & x19 & x20 & x21 & x22 & x23 &
     H1 & H8 & H12 & H16 & H17 & H18 & H19 & H20 & H21 & H22 & H23).
  rewrite (set_buffer_Some this v _ _ _ _ _ _ _ _ _ _ _
             H1 H8 H12 H16 H17 H18 H19 H20 H21 H22 H23) in H.
  discriminate H.
Qed.

(** X10: the setter returns on every buffer of 24 bytes or more, and the
    signature it stores is the whole text from offset 24 to the end of
    the buffer: as many characters as the buffer has bytes after the
    first 24, not six. *)
Theorem set_buffer_long_enough (this : NEWLDRRecord.t) (v : Buffer) :
  (24 <= length v)%nat ->
  exists r, NEWLDRRecord.set_buffer this (Buf v) = Normal r /\
            String.length (NEWLDRRecord.signature r) = (length v - 24)%nat.
Proof.
  intros Hlen.
  destruct (set_buffer_long this v Hlen) as
    (x1 & x8 & x12 & x16 & x17 & x18 & x19 & x20 & x21 & x22 & x23 &
     H1 & H8 & H12 & H16 & H17 & H18 & H19 & H20 & H21 & H22 & H23).
  rewrite (set_buffer_Some this v _ _ _ _ _ _ _ _ _ _ _
             H1 H8 H12 H16 H17 H18 H19 H20 H21 H22 H23).
  eexists. split; [reflexivity |].
  cbn [NEWLDRRecord.signature]. apply length_toString_ascii.
Qed.

Lemma set_buffer_long_enough_witness :
  (24 <= length blank_sector)%nat /\
  exists r, NEWLDRRecord.set_buffer exact_record (Buf blank_sector) = Normal r /\
            String.length (NEWLDRRecord.signature r) = 488%nat.
Proof.
  assert (H : (24 <= length blank_sector)%nat)
    by (apply Nat.leb_le; vm_compute; reflexivity).
  split; [exact H |].
  exact (set_buffer_long_enough exact_record blank_sector H).
Defined.

(** X11: on a buffer shorter than 24 bytes the setter throws, since one
    of its reads is past the end, and no record is produced. *)
Theorem set_buffer_too_short (this : NEWLDRRecord.t) (v : Buffer) :
  (length v < 24)%nat ->
  exists e, NEWLDRRecord.set_buffer this (Buf v) = Throw e.
Proof.
  intros Hlen.
  destruct (NEWLDRRecord.set_buffer this (Buf v)) as [r|e] eqn:H.
  - apply set_buffer_Normal_length in H. lia.
  - now exists e.
Qed.

Lemma set_buffer_too_short_witness :
  (length truncated_buffer < 24)%nat /\
  exists e, NEWLDRRecord.set_buffer exact_record (Buf truncated_buffer) = Throw e.
Proof.
  assert (H : (length truncated_buffer < 24)%nat) by (vm_compute; lia).
  split; [exact H |].
  exact (set_buffer_too_short exact_record truncated_buffer H).
Defined.

Lemma decoded_fits (this r : NEWLDRRecord.t) (v : Buffer) :
  wf_buffer v ->
  NEWLDRRecord.set_buffer this (Buf v) = Normal r -> fits r.
Proof.
  intros Hwf Hr.
  pose proof (set_buffer_Normal_length _ _ _ Hr) as Hlen.
  destruct (set_buffer_long this v Hlen) as
    (x1 & x8 & x12 & x16 & x17 & x18 & x19 & x20 & x21 & x22 & x23 &
     H1 & H8 & H12 & H16 & H17 & H18 & H19 & H20 & H21 & H22 & H23).
  rewrite (set_buffer_Some this v _ _ _ _ _ _ _ _ _ _ _
             H1 H8 H12 H16 H17 H18 H19 H20 H21 H22 H23) in Hr.
  injection Hr as <-.
  pose proof (wf_buffer_lookup _ _ _ Hwf H1).
  pose proof (wf_buffer_lookup _ _ _ Hwf H8).
  pose proof (wf_buffer_lookup _ _ _ Hwf H12).
  pose proof (wf_buffer_lookup _ _ _ Hwf H16).
  pose proof (wf_buffer_lookup _ _ _ Hwf H17).
  pose proof (wf_buffer_lookup _ _ _ Hwf H18).
  pose proof (wf_buffer_lookup _ _ _ Hwf H19).
  pose proof (wf_buffer_lookup _ _ _ Hwf H20).
  pose proof (wf_buffer_lookup _ _ _ Hwf H21).
  pose proof (wf_buffer_lookup _ _ _ Hwf H22).
  pose proof (wf_buffer_lookup _ _ _ Hwf H23).
  unfold fits.
  cbn [NEWLDRRecord.size NEWLDRRecord.physicalDrive NEWLDRRecord.minDL
       NEWLDRRecord.firstLBA NEWLDRRecord.patchOffset NEWLDRRecord.checksum].
  rewrite lor32_sum, !lor16_sum by lia.
  change (2 ^ 8) with 256. change (2 ^ 16) with 65536.
  change (2 ^ 24) with 16777216. lia.
Qed.

(** X12: every record the setter decodes from a buffer of bytes has
    integer fields that fit their widths, so that the getter returns on
    it: a decoded record can always be encoded again. *)
Theorem set_buffer_fits (heap : nat -> Z) (this r : NEWLDRRecord.t) (v : Buffer) :
  wf_buffer v ->
  NEWLDRRecord.set_buffer this (Buf v) = Normal r ->
  fits r /\ exists b, NEWLDRRecord.get_buffer heap r = Normal b.
Proof.
  intros Hwf Hr. pose proof (decoded_fits this r v Hwf Hr) as Hfits.
  split; [exact Hfits |]. now apply get_buffer_Normal_iff.
Qed.

Lemma set_buffer_fits_witness :
  wf_buffer sample_buffer /\
  (exists r, NEWLDRRecord.set_buffer exact_record (Buf sample_buffer) = Normal r /\
             fits r /\
             exists b, NEWLDRRecord.get_buffer (fun _ => 0xCC) r = Normal b).
Proof.
  split; [exact wf_buffer_sample_buffer |].
  eexists. split; [reflexivity |].
  exact (set_buffer_fits (fun _ => 0xCC) exact_record _ sample_buffer
           wf_buffer_sample_buffer eq_refl).
Defined.

(** ** Round trips of the NEWLDR record *)

Lemma ascii_decode_encode (c : ascii) :
  ascii_encode c < 0x80 -> ascii_decode (ascii_encode c) = c.
Proof.
  unfold ascii_decode, ascii_encode. intros Hc.
  rewrite land_7F_small by lia.
  rewrite N2Z.id. apply ascii_N_embedding.
Qed.

Lemma decode_codes (s : string) :
  ascii_text s -> ascii_decode <$> codes s = list_ascii_of_string s.
Proof.
  unfold ascii_text, codes. intros Htext.
  rewrite Forall_fmap, Forall_lookup in Htext.
  rewrite <- list_fmap_compose.
  rewrite <- (list_fmap_id (list_ascii_of_string s)) at 2.
  apply list_fmap_ext. intros i c Hi.
  apply ascii_decode_encode. exact (Htext i c Hi).
Qed.

Lemma toString_ascii_fields (r : NEWLDRRecord.t) (tail : Buffer) :
  toString_ascii (encoded_fields r ++ tail) 24 None =
  string_of_list_ascii (ascii_decode <$> tail).
Proof.
  unfold toString_ascii, slice. cbn [from_option id].
  now rewrite firstn_all, drop_24_fields.
Qed.

Lemma slice_24_30_fields (r : NEWLDRRecord.t) (s : string) :
  slice (encoded_fields r ++ signature_field s) 24 30 = signature_field s.
Proof.
  unfold slice. rewrite take_ge.
  - apply drop_24_fields.
  - rewrite length_app, length_signature_field. cbn. lia.
Qed.

(** The digits of a little-endian value are its bytes. *)
Lemma LE16_bytes (x0 x1 : Z) :
  0 <= x0 < 256 -> 0 <= x1 < 256 ->
  Z.land (x0 + 2 ^ 8 * x1) 0xFF = x0 /\
  Z.land (Z.shiftr (x0 + 2 ^ 8 * x1) 8) 0xFF = x1.
Proof.
  intros H0 H1. change 0xFF with (Z.ones 8).
  rewrite !Z.land_ones, Z.shiftr_div_pow2 by lia.
  change (2 ^ 8) with 256. split; Z.div_mod_to_equations; lia.
Qed.

Lemma LE32_bytes (x0 x1 x2 x3 : Z) :
  0 <= x0 < 256 -> 0 <= x1 < 256 -> 0 <= x2 < 256 -> 0 <= x3 < 256 ->
  let v := x0 + 2 ^ 8 * x1 + 2 ^ 16 * x2 + 2 ^ 24 * x3 in
  Z.land v 0xFF = x0 /\
  Z.land (Z.shiftr v 8) 0xFF = x1 /\
  Z.land (Z.shiftr v 16) 0xFF = x2 /\
  Z.land (Z.shiftr v 24) 0xFF = x3.
Proof.
  intros H0 H1 H2 H3 v. subst v. change 0xFF with (Z.ones 8).
  rewrite !Z.land_ones, !Z.shiftr_div_pow2 by lia.
  change (2 ^ 8) with 256. change (2 ^ 16) with 65536.
  change (2 ^ 24) with 16777216.
  repeat split; Z.div_mod_to_equations; lia.
Qed.

(** X13: decoding what the getter returns gives the record back.  For a
    record whose integer fields fit, the setter applied to the encoded
    buffer returns a record with the same six integer fields, the CHS
    address decoded from the encoded CHS bytes, and as signature the six
    bytes of the signature field without their high bits; the signature
    itself when it has exactly six 7-bit characters. *)
Theorem set_buffer_get_buffer (heap : nat -> Z) (this r : NEWLDRRecord.t) :
  fits r ->
  exists b, NEWLDRRecord.get_buffer heap r = Normal b /\
  exists r', NEWLDRRecord.set_buffer this (Buf b) = Normal r' /\
    NEWLDRRecord.size r' = NEWLDRRecord.size r /\
    NEWLDRRecord.physicalDrive r' = NEWLDRRecord.physicalDrive r /\
    NEWLDRRecord.minDL r' = NEWLDRRecord.minDL r /\
    NEWLDRRecord.firstLBA r' = NEWLDRRecord.firstLBA r /\
    NEWLDRRecord.patchOffset r' = NEWLDRRecord.patchOffset r /\
    NEWLDRRecord.checksum r' = NEWLDRRecord.checksum r /\
    NEWLDRRecord.firstCHS r' =
      CHS.set_buffer (NEWLDRRecord.firstCHS this)
                     (CHS.get_buffer (NEWLDRRecord.firstCHS r)) /\
    codes (NEWLDRRecord.signature r') =
      (fun x => Z.land x 0x7F) <$> signature_field (NEWLDRRecord.signature r) /\
    (String.length (NEWLDRRecord.signature r) = 6%nat ->
     ascii_text (NEWLDRRecord.signature r) ->
     NEWLDRRecord.signature r' = NEWLDRRecord.signature r).
Proof.
  intros Hfits. rewrite get_buffer_app by assumption.
  eexists. split; [reflexivity |].
  destruct Hfits as (Hsize & Hdrive & Hdl & Hlba & Hpatch & Hsum).
  erewrite set_buffer_Some by reflexivity.
  eexists. split; [reflexivity |].
  cbn [NEWLDRRecord.size NEWLDRRecord.physicalDrive NEWLDRRecord.firstCHS
       NEWLDRRecord.minDL NEWLDRRecord.firstLBA NEWLDRRecord.patchOffset
       NEWLDRRecord.checksum NEWLDRRecord.signature].
  rewrite toString_ascii_fields.
  do 3 (split; [reflexivity |]).
  split; [rewrite lor32_sum by apply land_FF_range;
          exact (LE32_digits _ Hlba) |].
  split; [rewrite lor16_sum by apply land_FF_range;
          exact (LE16_digits _ Hpatch) |].
  split; [rewrite lor16_sum by apply land_FF_range;
          exact (LE16_digits _ Hsum) |].
  split; [reflexivity |].
  split; [apply toString_ascii_codes |].
  intros Hlen Htext.
  rewrite signature_field_long by lia.
  rewrite take_ge by (rewrite length_codes; lia).
  rewrite decode_codes by assumption.
  apply string_of_list_ascii_of_string.
Qed.

Lemma ascii_text_exact_record :
  ascii_text (NEWLDRRecord.signature exact_record).
Proof. unfold ascii_text. cbn. repeat constructor; lia. Qed.

Lemma set_buffer_get_buffer_witness :
  fits exact_record /\
  String.length (NEWLDRRecord.signature exact_record) = 6%nat /\
  ascii_text (NEWLDRRecord.signature exact_record) /\
  exists b, NEWLDRRecord.get_buffer (fun _ => 0xCC) exact_record = Normal b /\
  exists r', NEWLDRRecord.set_buffer sample_record (Buf b) = Normal r' /\
    NEWLDRRecord.firstLBA r' = 0x12345678 /\
    NEWLDRRecord.checksum r' = 0xBEEF /\
    NEWLDRRecord.signature r' = "MSWIN4".
Proof.
  split; [exact fits_exact_record |]. split; [reflexivity |].
  split; [exact ascii_text_exact_record |].
  destruct (set_buffer_get_buffer (fun _ => 0xCC) sample_record exact_record
              fits_exact_record)
    as (b & Hb & r' & Hr' & _ & _ & _ & Hlba & _ & Hsum & _ & _ & Hsig).
  exists b. split; [exact Hb |]. exists r'. split; [exact Hr' |].
  split; [exact Hlba |]. split; [exact Hsum |].
  exact (Hsig eq_refl ascii_text_exact_record).
Defined.

(** X14: encoding what the setter decoded from a 30-byte buffer of bytes
    gives back the bytes of the integer fields (offsets 1, 8, 12 and 16
    to 23) unchanged and the six signature bytes without their high
    bits; the CHS bytes are those of the decoded CHS address. *)
Theorem get_buffer_set_buffer (heap : nat -> Z) (this : NEWLDRRecord.t) (v : Buffer) :
  length v = 30%nat -> wf_buffer v ->
  exists r, NEWLDRRecord.set_buffer this (Buf v) = Normal r /\
  exists b, NEWLDRRecord.get_buffer heap r = Normal b /\
    (forall i : nat, i ∈ integer_offsets -> b !! i = v !! i) /\
    slice b 24 30 = (fun x => Z.land x 0x7F) <$> slice v 24 30 /\
    slice b 9 12 =
      CHS.get_buffer (CHS.set_buffer (NEWLDRRecord.firstCHS this) (slice v 9 12)).
Proof.
  intros Hlen Hwf.
  destruct (NEWLDRRecord.set_buffer this (Buf v)) as [r|e] eqn:Hr.
  2:{ pose proof (set_buffer_too_short_aux this v e Hr). lia. }
  pose proof (decoded_fits this r v Hwf Hr) as Hfits.
  exists r. split; [reflexivity |].
  rewrite get_buffer_app by assumption.
  eexists. split; [reflexivity |].
  destruct (length_30_inv v Hlen) as
    (x0 & x1 & x2 & x3 & x4 & x5 & x6 & x7 & x8 & x9 & x10 & x11 & x12 &
     x13 & x14 & x15 & x16 & x17 & x18 & x19 & x20 & x21 & x22 & x23 &
     x24 & x25 & x26 & x27 & x28 & x29 & ->).
  pose proof (wf_buffer_lookup _ 16 _ Hwf eq_refl) as R16.
  pose proof (wf_buffer_lookup _ 17 _ Hwf eq_refl) as R17.
  pose proof (wf_buffer_lookup _ 18 _ Hwf eq_refl) as R18.
  pose proof (wf_buffer_lookup _ 19 _ Hwf eq_refl) as R19.
  pose proof (wf_buffer_lookup _ 20 _ Hwf eq_refl) as R20.
  pose proof (wf_buffer_lookup _ 21 _ Hwf eq_refl) as R21.
  pose proof (wf_buffer_lookup _ 22 _ Hwf eq_refl) as R22.
  pose proof (wf_buffer_lookup _ 23 _ Hwf eq_refl) as R23.
  erewrite set_buffer_Some in Hr by reflexivity.
  injection Hr as <-. clear Hfits.
  destruct (LE32_bytes x16 x17 x18 x19 R16 R17 R18 R19) as (L0 & L1 & L2 & L3).
  destruct (LE16_bytes x20 x21 R20 R21) as (P0 & P1).
  destruct (LE16_bytes x22 x23 R22 R23) as (C0 & C1).
  split; [| split].
  - intros i Hi. apply list_elem_of_In in Hi.
    unfold encoded_fields.
    cbn [NEWLDRRecord.size NEWLDRRecord.physicalDrive NEWLDRRecord.minDL
         NEWLDRRecord.firstLBA NEWLDRRecord.patchOffset
         NEWLDRRecord.checksum].
    rewrite lor32_sum, !lor16_sum by lia.
    rewrite L0, L1, L2, L3, P0, P1, C0, C1.
    simpl in Hi.
    repeat (destruct Hi as [<-|Hi]; [reflexivity |]). destruct Hi.
  - rewrite slice_24_30_fields.
    cbn [NEWLDRRecord.signature].
    unfold signature_field, codes, toString_ascii.
    rewrite toString_ascii_codes. reflexivity.
  - reflexivity.
Qed.

Lemma get_buffer_set_buffer_witness :
  length scrambled_buffer = 30%nat /\ wf_buffer scrambled_buffer /\
  exists r, NEWLDRRecord.set_buffer exact_record (Buf scrambled_buffer) = Normal r /\
            NEWLDRRecord.get_buffer (fun _ => 0xCC) r = Normal sample_buffer.
Proof.
  assert (Hwf : wf_buffer scrambled_buffer)
    by (unfold wf_buffer, scrambled_buffer; repeat constructor; lia).
  split; [reflexivity |]. split; [exact Hwf |].
  destruct (get_buffer_set_buffer (fun _ => 0xCC) exact_record
              scrambled_buffer eq_refl Hwf) as (r & Hr & _).
  exists r. split; [exact Hr |].
  vm_compute in Hr. injection Hr as <-. reflexivity.
Defined.

(** ** The NEWLDR constructor *)

Lemma window_lookup (b : Buffer) (start end_ : option nat) (i : nat) (x : Z) :
  window b start end_ !! i = Some x ->
  b !! (default 0%nat start + i)%nat = Some x.
Proof.
  unfold window, slice. rewrite lookup_drop. intros H.
  apply lookup_take_Some in H. apply H.
Qed.

Lemma byte_at_Some (b : Buffer) (i : nat) (x : Z) :
  b !! i = Some x -> byte_at b i = x.
Proof. unfold byte_at. now intros ->. Qed.

(** X15: the constructor called on a Buffer of bytes decodes the window
    from [start] (0 when omitted) to [end] (the length when omitted):
    when that window has 24 bytes or more it returns a record whose
    integer fields are read at [start] plus the field offsets, and whose
    signature has as many characters as the window has bytes after its
    first 24; none of the defaults of a fresh record is left. *)
Theorem new_window (blank : CHS.t) (b : Buffer) (start end_ : option nat) :
  wf_buffer b ->
  (24 <= length (window b start end_))%nat ->
  exists r, NEWLDRRecord.new blank (Buf b) start end_ = Normal r /\
    NEWLDRRecord.size r = byte_at b (default 0%nat start + 1) /\
    NEWLDRRecord.physicalDrive r = byte_at b (default 0%nat start + 8) /\
    NEWLDRRecord.minDL r = byte_at b (default 0%nat start + 12) /\
    NEWLDRRecord.firstLBA r = LE32 b (default 0%nat start + 16) /\
    NEWLDRRecord.patchOffset r = LE16 b (default 0%nat start + 20) /\
    NEWLDRRecord.checksum r = LE16 b (default 0%nat start + 22) /\
    String.length (NEWLDRRecord.signature r) =
      (length (window b start end_) - 24)%nat.
Proof.
  intros Hwf Hlen. unfold NEWLDRRecord.new. fold (window b start end_).
  set (this := NEWLDRRecord.mkNEWLDRRecord _ _ _ _ _ _ _ _).
  set (s := default 0%nat start).
  destruct (set_buffer_long this _ Hlen) as
    (x1 & x8 & x12 & x16 & x17 & x18 & x19 & x20 & x21 & x22 & x23 &
     H1 & H8 & H12 & H16 & H17 & H18 & H19 & H20 & H21 & H22 & H23).
  rewrite (set_buffer_Some this _ _ _ _ _ _ _ _ _ _ _ _
             H1 H8 H12 H16 H17 H18 H19 H20 H21 H22 H23).
  apply window_lookup in H1, H8, H12, H16, H17, H18, H19, H20, H21, H22, H23.
  fold s in H1, H8, H12, H16, H17, H18, H19, H20, H21, H22, H23.
  pose proof (wf_buffer_lookup _ _ _ Hwf H16).
  pose proof (wf_buffer_lookup _ _ _ Hwf H17).
  pose proof (wf_buffer_lookup _ _ _ Hwf H18).
  pose proof (wf_buffer_lookup _ _ _ Hwf H20).
  pose proof (wf_buffer_lookup _ _ _ Hwf H22).
  eexists. split; [reflexivity |].
  cbn [NEWLDRRecord.size NEWLDRRecord.physicalDrive NEWLDRRecord.minDL
       NEWLDRRecord.firstLBA NEWLDRRecord.patchOffset NEWLDRRecord.checksum
       NEWLDRRecord.signature].
  unfold LE32, LE16.
  replace (s + 16 + 1)%nat with (s + 17)%nat by lia.
  replace (s + 16 + 2)%nat with (s + 18)%nat by lia.
  replace (s + 16 + 3)%nat with (s + 19)%nat by lia.
  replace (s + 20 + 1)%nat with (s + 21)%nat by lia.
  replace (s + 22 + 1)%nat with (s + 23)%nat by lia.
  rewrite (byte_at_Some _ _ _ H1), (byte_at_Some _ _ _ H8),
    (byte_at_Some _ _ _ H12), (byte_at_Some _ _ _ H16),
    (byte_at_Some _ _ _ H17), (byte_at_Some _ _ _ H18),
    (byte_at_Some _ _ _ H19), (byte_at_Some _ _ _ H20),
    (byte_at_Some _ _ _ H21), (byte_at_Some _ _ _ H22),
    (byte_at_Some _ _ _ H23).
  rewrite lor32_sum, !lor16_sum by lia.
  repeat (split; [reflexivity |]).
  apply length_toString_ascii.
Qed.

Lemma new_window_witness :
  wf_buffer two_records /\
  (24 <= length (window two_records (Some 30%nat) None))%nat /\
  exists r, NEWLDRRecord.new (CHS.mkCHS 0 0 0) (Buf two_records)
              (Some 30%nat) None = Normal r /\
    NEWLDRRecord.firstLBA r = 0x12345678 /\
    String.length (NEWLDRRecord.signature r) = 6%nat.
Proof.
  assert (Hwf : wf_buffer two_records)
    by (unfold wf_buffer, two_records, scrambled_buffer, sample_buffer;
        cbn [app]; repeat constructor; lia).
  assert (Hlen : (24 <= length (window two_records (Some 30%nat) None))%nat)
    by (vm_compute; lia).
  split; [exact Hwf |]. split; [exact Hlen |].
  destruct (new_window (CHS.mkCHS 0 0 0) two_records (Some 30%nat) None
              Hwf Hlen) as (r & Hr & _ & _ & _ & Hlba & _ & _ & Hsig).
  exists r. split; [exact Hr |]. split; [exact Hlba | exact Hsig].
Defined.
